(** * Quiz and flashcard generation pipeline ([backend/services/ai_service.py])

    A shallow embedding of the generation orchestrator: the two public
    entry points [generate_quiz] and [generate_flashcards], the two wrappers
    around the text-generation client, the response validators and the
    de-duplication of question texts, followed by the properties of the
    pipeline that the specification states.

    Python values are embedded as the inductive type [pyval]; a Python [str]
    is a [string] whose characters stand for code points below 256.  The
    external collaborators (the LLM backend, the retrieval service, the JSON
    decoder of the standard library) are fields of an environment record and
    are arbitrary in every theorem. *)

From Stdlib Require Import ZArith String Ascii Bool Floats.PrimFloat DecimalString.
From stdpp Require Import gmap strings list.

Set Warnings "-inexact-float,-register-all".
Local Open Scope string_scope.

(** ** Strings *)

Module Str.

Definition dq : string := String "034"%char EmptyString.
Definition nl : string := String "010"%char EmptyString.

Definition quoted (s : string) : string := dq +:+ s +:+ dq.

(** [sep.join(parts)] *)
Fixpoint join (sep : string) (parts : list string) : string :=
  match parts with
  | [] => ""
  | [p] => p
  | p :: rest => p +:+ sep +:+ join sep rest
  end.

(** [str.isspace] on one character (code points below 256). *)
Definition isspace (c : ascii) : bool :=
  let n := nat_of_ascii c in
  (((9 <=? n) && (n <=? 13)) || ((28 <=? n) && (n <=? 32))
   || (n =? 133) || (n =? 160))%nat.

Definition nonempty (s : string) : bool :=
  match s with EmptyString => false | String _ _ => true end.

Fixpoint lstrip (s : string) : string :=
  match s with
  | EmptyString => EmptyString
  | String c r => if isspace c then lstrip r else s
  end.

Fixpoint rstrip (s : string) : string :=
  match s with
  | EmptyString => EmptyString
  | String c r =>
      let r' := rstrip r in
      if isspace c && negb (nonempty r') then EmptyString else String c r'
  end.

(** [s.strip()] *)
Definition strip (s : string) : string := rstrip (lstrip s).

Definition lower_char (c : ascii) : ascii :=
  let n := nat_of_ascii c in
  if (((65 <=? n) && (n <=? 90))
      || ((192 <=? n) && (n <=? 222) && negb (n =? 215)))%nat
  then ascii_of_nat (n + 32) else c.

(** [s.lower()] *)
Fixpoint lower (s : string) : string :=
  match s with
  | EmptyString => EmptyString
  | String c r => String (lower_char c) (lower r)
  end.

(** [s[:n]] for a non-negative [n] *)
Definition prefix (n : nat) (s : string) : string := String.substring 0 n s.

(** [str(n)] for a non-negative integer *)
Definition of_nat (n : nat) : string := NilZero.string_of_uint (Nat.to_uint n).

(** [str(z)] for an integer *)
Definition of_Z (z : Z) : string := NilZero.string_of_int (Z.to_int z).

End Str.

(** ** Python values *)

Inductive pyval : Type :=
| PNone
| PBool (b : bool)
| PInt (z : Z)
| PFloat (f : float)
| PStr (s : string)
| PList (items : list pyval)
| PDict (entries : list (string * pyval)).

(** Exceptions the modelled code can meet. *)
Inductive exn : Type :=
| AttributeError
| TypeError
| KeyError
| JSONDecodeError
| APIError.

(** Result of running a piece of code: a value, an exception in flight, or
    a loop that used up the unrolling bound of the model. *)
Inductive outcome (A : Type) : Type :=
| Ok (a : A)
| Raise (e : exn)
| Diverge.
Arguments Ok {A} a.
Arguments Raise {A} e.
Arguments Diverge {A}.

Module Py.

(** A dict keeps its entries in insertion order; a key is bound once. *)
Fixpoint lookup (entries : list (string * pyval)) (k : string) : option pyval :=
  match entries with
  | [] => None
  | (k', v) :: rest => if String.eqb k' k then Some v else lookup rest k
  end.

(** [v.get(k, dflt)] *)
Definition get (v : pyval) (k : string) (dflt : pyval) : outcome pyval :=
  match v with
  | PDict entries => Ok (default dflt (lookup entries k))
  | _ => Raise AttributeError
  end.

(** [v[k]] for a string key *)
Definition getitem (v : pyval) (k : string) : outcome pyval :=
  match v with
  | PDict entries =>
      match lookup entries k with
      | Some x => Ok x
      | None => Raise KeyError
      end
  | _ => Raise TypeError
  end.

(** [len(v)] *)
Definition len (v : pyval) : outcome nat :=
  match v with
  | PStr s => Ok (String.length s)
  | PList items => Ok (length items)
  | PDict entries => Ok (length entries)
  | _ => Raise TypeError
  end.

Definition isinstance_str (v : pyval) : bool :=
  match v with PStr _ => true | _ => false end.

Definition isinstance_list (v : pyval) : bool :=
  match v with PList _ => true | _ => false end.

(** [isinstance(v, int)]: [bool] is a subclass of [int]. *)
Definition isinstance_int (v : pyval) : bool :=
  match v with PInt _ | PBool _ => true | _ => false end.

(** Truth value of an object. *)
Definition truthy (v : pyval) : bool :=
  match v with
  | PNone => false
  | PBool b => b
  | PInt z => negb (z =? 0)%Z
  | PFloat f => negb (PrimFloat.eqb f 0%float)
  | PStr s => Str.nonempty s
  | PList items => match items with [] => false | _ => true end
  | PDict entries => match entries with [] => false | _ => true end
  end.

(** [v.strip()], a method of strings only *)
Definition strip (v : pyval) : outcome string :=
  match v with
  | PStr s => Ok (Str.strip s)
  | _ => Raise AttributeError
  end.

(** [for x in v]: the items visited.  A dict yields its keys, a string
    its characters. *)
Fixpoint chars (s : string) : list pyval :=
  match s with
  | EmptyString => []
  | String c r => PStr (String c EmptyString) :: chars r
  end.

Definition iter (v : pyval) : outcome (list pyval) :=
  match v with
  | PList items => Ok items
  | PDict entries => Ok (map (fun kv => PStr (fst kv)) entries)
  | PStr s => Ok (chars s)
  | _ => Raise TypeError
  end.

(** [str(v)].  The text of a float, a list or a dict is left to the
    interpreter ([repr_compound]). *)
Definition str (repr_compound : pyval -> string) (v : pyval) : string :=
  match v with
  | PStr s => s
  | PNone => "None"
  | PBool true => "True"
  | PBool false => "False"
  | PInt z => Str.of_Z z
  | _ => repr_compound v
  end.

End Py.

(** ** Pattern searches of the response parser *)

Module Re.

(** Shortest prefix of [s] that ends with a closing brace. *)
Fixpoint upto_close (s : string) : option string :=
  match s with
  | EmptyString => None
  | String c r =>
      if Ascii.eqb c "}" then Some (String c EmptyString)
      else option_map (String c) (upto_close r)
  end.

(** [re.search(r"\{[\s\S]*?\}", s)], the matched text: from the leftmost
    opening brace that has a closing brace after it, up to the first such
    closing brace. *)
Fixpoint search_object (s : string) : option string :=
  match s with
  | EmptyString => None
  | String c r =>
      if Ascii.eqb c "{" then
        match upto_close r with
        | Some m => Some (String c m)
        | None => search_object r
        end
      else search_object r
  end.

(** [\s*\]] anchored at the head of [s]: the text it consumes. *)
Fixpoint close_tail (s : string) : option string :=
  match s with
  | EmptyString => None
  | String c r =>
      if Ascii.eqb c "]" then Some (String c EmptyString)
      else if Str.isspace c then option_map (String c) (close_tail r)
      else None
  end.

(** [[\s\S]*?\}\s*\]] anchored at the head of [s]: the lazy star takes the
    fewest characters after which a closing brace, blanks and a closing
    bracket follow. *)
Fixpoint lazy_body (s : string) : option string :=
  match s with
  | EmptyString => None
  | String c r =>
      if Ascii.eqb c "}" then
        match close_tail r with
        | Some t => Some (String c t)
        | None => option_map (String c) (lazy_body r)
        end
      else option_map (String c) (lazy_body r)
  end.

(** [\s*\{[\s\S]*?\}\s*\]] anchored at the head of [s]. *)
Fixpoint open_body (s : string) : option string :=
  match s with
  | EmptyString => None
  | String c r =>
      if Ascii.eqb c "{" then option_map (String c) (lazy_body r)
      else if Str.isspace c then option_map (String c) (open_body r)
      else None
  end.

(** [re.search(r"\[\s*\{[\s\S]*?\}\s*\]", s)], the matched text. *)
Fixpoint search_array (s : string) : option string :=
  match s with
  | EmptyString => None
  | String c r =>
      if Ascii.eqb c "[" then
        match open_body r with
        | Some m => Some (String c m)
        | None => search_array r
        end
      else search_array r
  end.

End Re.

(** ** The outside world *)

(** Arguments of [client.chat.completions.create]. *)
Record ChatRequest : Type := mkChatRequest {
  model : string;
  messages : list (string * string);   (* role, content *)
  temperature : float;
  max_tokens : Z
}.

(** Which wrapper of the text-generation client was entered. *)
Inductive ClientCall : Type :=
| McqCall
| FlashcardCall (count : nat).

(** What the process has done so far, oldest first: the retrievals asked of
    the document service, the entries into a wrapper of the text-generation
    client, and the requests sent to the LLM backend. *)
Record World : Type := mkWorld {
  rag_calls : list (Z * Z * Z);        (* subject_id, unit_id, top_k *)
  client_calls : list ClientCall;
  llm_requests : list ChatRequest
}.

Definition world0 : World := mkWorld [] [] [].

(** Modelled from the spec: [backend.services.rag_service] is not among the
    sources; section 6 gives [retrieveContext] the result type "sequence of
    {text: string}", the text possibly empty or missing.  [None] is a
    missing (or null) text. *)
Record Chunk : Type := mkChunk { text : option string }.

(** The module-level state set at import time and the collaborators.  An
    oracle sees the history of the process, so that it can answer each call
    differently.
    - [client]: [None] is Python's [None]; otherwise the backend, which
      answers a request with the message content of the first choice, or
      with [None] when the call (or the access to that content) raises;
    - [retrieve_context]: [None] when the document service raises;
    - [json_loads]: [None] when the decoder raises;
    - [repr_compound]: see [Py.str]. *)
Record Env : Type := mkEnv {
  GROQ_AVAILABLE : bool;
  client : option (World -> ChatRequest -> option string);
  RAG_AVAILABLE : bool;
  retrieve_context : World -> Z -> Z -> Z -> option (list Chunk);
  json_loads : string -> option pyval;
  repr_compound : pyval -> string
}.

(** ** Computations: state, exceptions, bounded loops *)

Definition M (A : Type) : Type := World -> outcome A * World.

Definition ret {A} (a : A) : M A := fun w => (Ok a, w).

Definition bind {A B} (m : M A) (k : A -> M B) : M B :=
  fun w =>
    match m w with
    | (Ok a, w') => k a w'
    | (Raise e, w') => (Raise e, w')
    | (Diverge, w') => (Diverge, w')
    end.

Definition lift {A} (o : outcome A) : M A := fun w => (o, w).

(** [try: body except Exception: handler] *)
Definition try_except {A} (body : M A) (handler : exn -> M A) : M A :=
  fun w =>
    match body w with
    | (Raise e, w') => handler e w'
    | r => r
    end.

Declare Scope py_scope.
Delimit Scope py_scope with py.
Notation "x <- c ;; k" := (bind c (fun x => k))
  (at level 100, c at next level, right associativity) : py_scope.
Notation "c ;;; k" := (bind c (fun _ => k))
  (at level 100, right associativity) : py_scope.
Local Open Scope py_scope.

(** Bounded unrolling of [while cond: body].  [Diverge] is the answer when
    the bound is used up with the condition still true. *)
Fixpoint while {S : Type} (fuel : nat) (cond : S -> bool) (body : S -> M S)
    (s : S) : M S :=
  if cond s then
    match fuel with
    | O => lift Diverge
    | Datatypes.S fuel' => s' <- body s ;; while fuel' cond body s'
    end
  else ret s.

Definition log_retrieval (args : Z * Z * Z) (w : World) : World :=
  mkWorld (rag_calls w ++ [args]) (client_calls w) (llm_requests w).

Definition log_client_call (c : ClientCall) (w : World) : World :=
  mkWorld (rag_calls w) (client_calls w ++ [c]) (llm_requests w).

Definition log_request (req : ChatRequest) (w : World) : World :=
  mkWorld (rag_calls w) (client_calls w) (llm_requests w ++ [req]).

(** Entry into a wrapper of the text-generation client: recorded, so that
    invocations can be counted. *)
Definition enter (c : ClientCall) : M unit :=
  fun w => (Ok tt, log_client_call c w).

(** ** CONFIG *)

Definition DIFFICULTY_QUESTION_COUNT : gmap string nat :=
  <["easy" := 5]> (<["medium" := 8]> (<["hard" := 10]> ∅)).

Definition FLASHCARD_COUNT : gmap string nat := DIFFICULTY_QUESTION_COUNT.

(** [d.get(k, dflt)] on a dict of counts *)
Definition dict_get (d : gmap string nat) (k : string) (dflt : nat) : nat :=
  default dflt (d !! k).

(** ** The pipeline *)

Section Pipeline.

Variable E : Env.

(** [client.chat.completions.create(...)] followed by
    [response.choices[0].message.content]. *)
Definition chat_completions_create (req : ChatRequest) : M string :=
  fun w =>
    match client E with
    | None => (Raise AttributeError, w)
    | Some backend =>
        match backend w req with
        | Some content => (Ok content, log_request req w)
        | None => (Raise APIError, log_request req w)
        end
    end.

(** [json.loads(s)] *)
Definition json_loads_py (s : string) : M pyval :=
  match json_loads E s with
  | Some v => ret v
  | None => lift (Raise JSONDecodeError)
  end.

(** [not GROQ_AVAILABLE or not client] *)
Definition groq_unusable : bool :=
  negb (GROQ_AVAILABLE E) || negb (bool_decide (is_Some (client E))).

(** *** INTERNAL: SAFE MCQ GENERATION *)

(** [previous]: one line per question asked so far.  Python leaves the
    order in which a set is iterated open; [elements] fixes one, and no
    property below depends on it. *)
Definition mcq_previous (asked : gset string) : string :=
  let joined := Str.join Str.nl (map (fun q => "- " +:+ q) (elements asked)) in
  if Str.nonempty joined then joined else "None".

Definition mcq_prompt (context : string) (asked : gset string) : string :=
  Str.join Str.nl
    [ "";
      "Generate ONE UNIQUE exam-oriented MCQ.";
      "";
      "STRICT RULES:";
      "- Must NOT repeat or paraphrase previous questions";
      "- Focus on a NEW concept";
      "- DCET / Diploma level";
      "- Exactly 4 options";
      "- One correct answer";
      "- Short explanation";
      "- Return ONLY ONE JSON object";
      "";
      "PREVIOUS QUESTIONS:";
      mcq_previous asked;
      "";
      "STUDY MATERIAL:";
      Str.prefix 3000 context;
      "";
      "JSON FORMAT ONLY:";
      "{";
      "  " +:+ Str.quoted "question" +:+ ": " +:+ Str.quoted "" +:+ ",";
      "  " +:+ Str.quoted "options" +:+ ": [" +:+ Str.quoted "" +:+ ", "
        +:+ Str.quoted "" +:+ ", " +:+ Str.quoted "" +:+ ", "
        +:+ Str.quoted "" +:+ "],";
      "  " +:+ Str.quoted "correct_index" +:+ ": 0,";
      "  " +:+ Str.quoted "explanation" +:+ ": " +:+ Str.quoted "";
      "}";
      "" ].

Definition mcq_request (context : string) (asked : gset string) : ChatRequest :=
  {| model := "llama-3.1-8b-instant";
     messages := [ ("system", "You are an exam MCQ generator.");
                   ("user", mcq_prompt context asked) ];
     temperature := 0.6%float;
     max_tokens := 500 |}.

(** The acceptance test of lines 121-127, with the short-circuit of [and]. *)
Definition mcq_accepts (data : pyval) : M bool :=
  q <- lift (Py.get data "question" PNone) ;;
  if negb (Py.isinstance_str q) then ret false else
  o <- lift (Py.get data "options" PNone) ;;
  if negb (Py.isinstance_list o) then ret false else
  o' <- lift (Py.getitem data "options") ;;
  n <- lift (Py.len o') ;;
  if negb (n =? 4)%nat then ret false else
  c <- lift (Py.get data "correct_index" PNone) ;;
  if negb (Py.isinstance_int c) then ret false else
  e <- lift (Py.get data "explanation" PNone) ;;
  ret (Py.isinstance_str e).

Definition _generate_mcq_from_context (context : string) (asked : gset string)
    : M pyval :=
  enter McqCall ;;;
  if groq_unusable then ret (PDict [])
  else
    try_except
      (content <- chat_completions_create (mcq_request context asked) ;;
       let raw := Str.strip content in
       match Re.search_object raw with
       | None => ret (PDict [])
       | Some matched =>
           data <- json_loads_py matched ;;
           ok <- mcq_accepts data ;;
           if ok then ret data else ret (PDict [])
       end)
      (fun _ => ret (PDict [])).

(** *** FLASHCARD GENERATION *)

Definition flashcard_prompt (context : string) (count : nat) : string :=
  Str.join Str.nl
    [ "";
      "Generate EXACTLY " +:+ Str.of_nat count +:+ " exam-oriented flashcards.";
      "";
      "RULES:";
      "- Front: Question only";
      "- Back: Explanation only";
      "- Simple language";
      "";
      "STUDY MATERIAL:";
      Str.prefix 4000 context;
      "";
      "Return JSON ARRAY ONLY:";
      "[";
      "  {";
      "    " +:+ Str.quoted "front" +:+ ": " +:+ Str.quoted "" +:+ ",";
      "    " +:+ Str.quoted "back" +:+ ": " +:+ Str.quoted "";
      "  }";
      "]";
      "" ].

Definition flashcard_request (context : string) (count : nat) : ChatRequest :=
  {| model := "llama-3.1-8b-instant";
     messages := [ ("user", flashcard_prompt context count) ];
     temperature := 0.2%float;
     max_tokens := 1200 |}.

(** The [for card in data] loop of lines 182-191; [flashcards] is the list
    built so far. *)
Fixpoint collect_flashcards (cards : list pyval) (flashcards : list pyval)
    : M (list pyval) :=
  match cards with
  | [] => ret flashcards
  | card :: rest =>
      f <- lift (Py.get card "front" (PStr "")) ;;
      let front := Str.strip (Py.str (repr_compound E) f) in
      b <- lift (Py.get card "back" (PStr "")) ;;
      let back := Str.strip (Py.str (repr_compound E) b) in
      if Str.nonempty front && Str.nonempty back then
        collect_flashcards rest
          (flashcards ++ [PDict [ ("question", PStr front);
                                  ("answer", PStr back);
                                  ("front", PStr front);
                                  ("back", PStr back) ]])
      else collect_flashcards rest flashcards
  end.

Definition _generate_flashcards_from_context (context : string) (count : nat)
    : M (list pyval) :=
  enter (FlashcardCall count) ;;;
  if groq_unusable then ret []
  else
    try_except
      (content <- chat_completions_create (flashcard_request context count) ;;
       let text := Str.strip content in
       match Re.search_array text with
       | None => ret []
       | Some matched =>
           data <- json_loads_py matched ;;
           cards <- lift (Py.iter data) ;;
           collect_flashcards cards []
       end)
      (fun _ => ret []).

(** *** HELPERS *)

(** [rag_service.retrieve_context(...)] *)
Definition rag_retrieve (subject_id unit_id top_k : Z) : M (list Chunk) :=
  fun w =>
    match retrieve_context E w subject_id unit_id top_k with
    | Some chunks => (Ok chunks, log_retrieval (subject_id, unit_id, top_k) w)
    | None => (Raise APIError, log_retrieval (subject_id, unit_id, top_k) w)
    end.

Definition _get_chunks (subject_id unit_id top_k : Z) : M (list Chunk) :=
  try_except (rag_retrieve subject_id unit_id top_k) (fun _ => ret []).

Definition _empty_quiz (message : string) : pyval :=
  PDict [ ("success", PBool false);
          ("message", PStr message);
          ("questions", PList []) ].

(** [" ".join(c.get("text", "") for c in chunks if c.get("text"))] *)
Definition chunk_texts (chunks : list Chunk) : list string :=
  omap (fun c => match text c with
                 | Some t => if Str.nonempty t then Some t else None
                 | None => None
                 end) chunks.

Definition assemble_context (chunks : list Chunk) : string :=
  Str.join " " (chunk_texts chunks).

(** *** PUBLIC API: QUIZ *)

(** The local variables of the retry loop. *)
Record QuizLoop : Type := mkQuizLoop {
  questions : list pyval;
  asked_questions : gset string;
  attempts : nat
}.

(** Loop test of line 221. *)
Definition quiz_continue (count max_attempts : nat) (st : QuizLoop) : bool :=
  ((length (questions st) <? count) && (attempts st <? max_attempts))%nat.

(** Loop body of lines 222-233. *)
Definition quiz_iteration (context : string) (st : QuizLoop) : M QuizLoop :=
  mcq <- _generate_mcq_from_context context (asked_questions st) ;;
  let attempts' := attempts st + 1 in
  if negb (Py.truthy mcq) then
    ret (mkQuizLoop (questions st) (asked_questions st) attempts')
  else
    q <- lift (Py.getitem mcq "question") ;;
    stripped <- lift (Py.strip q) ;;
    let q_text := Str.lower stripped in
    if bool_decide (q_text ∈ asked_questions st) then
      ret (mkQuizLoop (questions st) (asked_questions st) attempts')
    else
      ret (mkQuizLoop (questions st ++ [mcq])
                      (asked_questions st ∪ {[ q_text ]})
                      attempts').

Definition generate_quiz (subject_id unit_id : Z) (difficulty : string)
    : M pyval :=
  if negb (RAG_AVAILABLE E) then
    ret (_empty_quiz "Document service not available")
  else
    let count := dict_get DIFFICULTY_QUESTION_COUNT difficulty 8 in
    chunks <- _get_chunks subject_id unit_id 40 ;;
    let context := assemble_context chunks in
    if (String.length context <? 200)%nat then
      ret (_empty_quiz "Insufficient content")
    else
      let max_attempts := count * 4 in
      st <- while max_attempts (quiz_continue count max_attempts)
              (quiz_iteration context) (mkQuizLoop [] ∅ 0) ;;
      if negb (Py.truthy (PList (questions st))) then
        ret (_empty_quiz "MCQ generation failed")
      else
        ret (PDict [ ("success", PBool true);
                     ("difficulty", PStr difficulty);
                     ("questions", PList (questions st)) ]).

(** *** PUBLIC API: FLASHCARDS *)

Definition generate_flashcards (subject_id unit_id : Z) (difficulty : string)
    : M pyval :=
  if negb (RAG_AVAILABLE E) then
    ret (PDict [ ("success", PBool false); ("flashcards", PList []) ])
  else
    let count := dict_get FLASHCARD_COUNT difficulty 8 in
    chunks <- _get_chunks subject_id unit_id 30 ;;
    let context := assemble_context chunks in
    if (String.length context <? 200)%nat then
      ret (PDict [ ("success", PBool false); ("flashcards", PList []) ])
    else
      flashcards <- _generate_flashcards_from_context context count ;;
      ret (PDict [ ("success", PBool true);
                   ("difficulty", PStr difficulty);
                   ("flashcards", PList flashcards) ]).

End Pipeline.

(** ** Shapes named by the specification *)

(** What [_generate_mcq_from_context] checks before it returns a decoded
    object: the four keys, with the types of lines 122-126. *)
Definition well_formed_mcq (v : pyval) : bool :=
  match v with
  | PDict entries =>
      match Py.lookup entries "question", Py.lookup entries "options",
            Py.lookup entries "correct_index", Py.lookup entries "explanation"
      with
      | Some (PStr _), Some (PList options), Some c, Some (PStr _) =>
          (length options =? 4)%nat && Py.isinstance_int c
      | _, _, _, _ => false
      end
  | _ => false
  end.

(** The QuestionArtifact of the data model, in the words of the
    specification: a string, exactly four strings, an integer between 0 and
    3, a string (under the keys the code uses; a bool counts as the integer
    it is). *)
Definition question_artifact_spec (v : pyval) : bool :=
  match v with
  | PDict entries =>
      match Py.lookup entries "question", Py.lookup entries "options",
            Py.lookup entries "correct_index", Py.lookup entries "explanation"
      with
      | Some (PStr _), Some (PList options), Some c, Some (PStr _) =>
          (length options =? 4)%nat
          && forallb Py.isinstance_str options
          && match c with
             | PInt i => (0 <=? i)%Z && (i <=? 3)%Z
             | PBool _ => true
             | _ => false
             end
      | _, _, _, _ => false
      end
  | _ => false
  end.

(** The DedupKey of a question: its text, trimmed and lower-cased. *)
Definition question_key (v : pyval) : option string :=
  match v with
  | PDict entries =>
      match Py.lookup entries "question" with
      | Some (PStr q) => Some (Str.lower (Str.strip q))
      | _ => None
      end
  | _ => None
  end.

(** A flashcard as [_generate_flashcards_from_context] builds it. *)
Definition flashcard (front back : string) : pyval :=
  PDict [ ("question", PStr front); ("answer", PStr back);
          ("front", PStr front); ("back", PStr back) ].

(** The fixed table of the data model: easy=5, medium=8, hard=10, and 8 for
    any other difficulty. *)
Definition target_count (difficulty : string) : nat :=
  if String.eqb difficulty "easy" then 5
  else if String.eqb difficulty "medium" then 8
  else if String.eqb difficulty "hard" then 10
  else 8.

(** Entries of an envelope. *)
Definition field (envelope : pyval) (k : string) : option pyval :=
  match envelope with
  | PDict entries => Py.lookup entries k
  | _ => None
  end.

Definition envelope_questions (envelope : pyval) : list pyval :=
  match field envelope "questions" with
  | Some (PList qs) => qs
  | _ => []
  end.

(** The failure envelope of [generate_flashcards] (lines 251 and 258). *)
Definition flashcards_failure : pyval :=
  PDict [ ("success", PBool false); ("flashcards", PList []) ].

(** [m], run in the world [w], returns a value (it neither raises nor runs
    out of its bound), and the value and the world after satisfy [Q]. *)
Definition returns {A} (m : M A) (w : World) (Q : A -> World -> Prop) : Prop :=
  match m w with
  | (Ok a, w') => Q a w'
  | _ => False
  end.

(** What [_get_chunks] hands back in the world [w]. *)
Definition retrieved (E : Env) (subject_id unit_id top_k : Z) (w : World)
    : list Chunk :=
  match retrieve_context E w subject_id unit_id top_k with
  | Some chunks => chunks
  | None => []
  end.

(** The context text [generate_quiz] assembles (top_k = 40). *)
Definition quiz_context (E : Env) (subject_id unit_id : Z) (w : World) : string :=
  assemble_context (retrieved E subject_id unit_id 40 w).

(** The context text [generate_flashcards] assembles (top_k = 30). *)
Definition flashcard_context (E : Env) (subject_id unit_id : Z) (w : World)
    : string :=
  assemble_context (retrieved E subject_id unit_id 30 w).

(** The retry loop of [generate_quiz] as that function starts it. *)
Definition quiz_loop (E : Env) (context : string) (count : nat) : M QuizLoop :=
  while (count * 4) (quiz_continue count (count * 4))
    (quiz_iteration E context) (mkQuizLoop [] ∅ 0).

(** The success envelope of [generate_quiz] (lines 238-242). *)
Definition quiz_success (difficulty : string) (qs : list pyval) : pyval :=
  PDict [ ("success", PBool true); ("difficulty", PStr difficulty);
          ("questions", PList qs) ].

(** The value was produced by the JSON decoder, whole. *)
Definition decoded (E : Env) (v : pyval) : Prop :=
  exists s, json_loads E s = Some v.

(** ** Sample environments *)

(** Three hundred characters of study material. *)
Definition lecture : string := String.concat "" (repeat "study material " 20).

(** A reply of the model that decodes, with options that are no strings and
    an index outside the options. *)
Definition odd_literal : string :=
  "{" +:+ Str.quoted "question" +:+ ": " +:+ Str.quoted " Which One? " +:+ ", "
  +:+ Str.quoted "options" +:+ ": [1, 2, 3, 4], "
  +:+ Str.quoted "correct_index" +:+ ": 7, "
  +:+ Str.quoted "explanation" +:+ ": " +:+ Str.quoted "because" +:+ "}".

(** [json.loads(odd_literal)] *)
Definition odd_mcq : pyval :=
  PDict [ ("question", PStr " Which One? ");
          ("options", PList [PInt 1; PInt 2; PInt 3; PInt 4]);
          ("correct_index", PInt 7);
          ("explanation", PStr "because") ].

(** A reply of the model in flashcard mode: two cards, the second with an
    empty front. *)
Definition cards_literal : string :=
  "[{" +:+ Str.quoted "front" +:+ ": " +:+ Str.quoted " What is a diode? " +:+ ", "
  +:+ Str.quoted "back" +:+ ": " +:+ Str.quoted "A one-way valve" +:+ "}, {"
  +:+ Str.quoted "front" +:+ ": " +:+ Str.quoted "  " +:+ ", "
  +:+ Str.quoted "back" +:+ ": " +:+ Str.quoted "orphan" +:+ "}]".

(** [json.loads(cards_literal)] *)
Definition cards_value : pyval :=
  PList [ PDict [ ("front", PStr " What is a diode? ");
                  ("back", PStr "A one-way valve") ];
          PDict [ ("front", PStr "  "); ("back", PStr "orphan") ] ].

(** The decoder, on the two literals above. *)
Definition sample_loads (s : string) : option pyval :=
  if String.eqb s odd_literal then Some odd_mcq
  else if String.eqb s cards_literal then Some cards_value
  else None.

(** A backend that wraps its JSON in prose and repeats itself: the same
    question on every single-question request, the same two cards on every
    batch request. *)
Definition chatty_backend (w : World) (req : ChatRequest) : option string :=
  if (max_tokens req =? 500)%Z
  then Some ("Sure! " +:+ odd_literal +:+ " Hope it helps.")
  else Some ("Here you go: " +:+ cards_literal).

Definition chatty_env : Env :=
  {| GROQ_AVAILABLE := true;
     client := Some chatty_backend;
     RAG_AVAILABLE := true;
     retrieve_context := fun _ _ _ _ =>
       Some [mkChunk (Some lecture); mkChunk None; mkChunk (Some "")];
     json_loads := sample_loads;
     repr_compound := fun _ => "" |}.

(** A backend that never repeats itself: its n-th reply carries the
    question "Question n". *)
Definition fresh_literal (n : nat) : string :=
  "{" +:+ Str.quoted "question" +:+ ": "
  +:+ Str.quoted ("Question " +:+ Str.of_nat n) +:+ ", "
  +:+ Str.quoted "options" +:+ ": [" +:+ Str.quoted "a" +:+ ", "
  +:+ Str.quoted "b" +:+ ", " +:+ Str.quoted "c" +:+ ", " +:+ Str.quoted "d"
  +:+ "], " +:+ Str.quoted "correct_index" +:+ ": 0, "
  +:+ Str.quoted "explanation" +:+ ": " +:+ Str.quoted "e" +:+ "}".

(** [json.loads(fresh_literal n)] *)
Definition fresh_mcq (n : nat) : pyval :=
  PDict [ ("question", PStr ("Question " +:+ Str.of_nat n));
          ("options", PList [PStr "a"; PStr "b"; PStr "c"; PStr "d"]);
          ("correct_index", PInt 0);
          ("explanation", PStr "e") ].

(** The decoder, on the first forty of those replies. *)
Definition fresh_loads (s : string) : option pyval :=
  match List.find (fun n => String.eqb s (fresh_literal n)) (seq 0 40) with
  | Some n => Some (fresh_mcq n)
  | None => None
  end.

(** Five thousand characters of study material. *)
Definition long_lecture : string := String.concat "" (repeat "0123456789" 500).

Definition fresh_env : Env :=
  {| GROQ_AVAILABLE := true;
     client := Some (fun w _ => Some (fresh_literal (length (llm_requests w))));
     RAG_AVAILABLE := true;
     retrieve_context := fun _ _ _ _ => Some [mkChunk (Some long_lecture)];
     json_loads := fresh_loads;
     repr_compound := fun _ => "" |}.

(** No LLM credential: the client was never built. *)
Definition offline_env : Env :=
  {| GROQ_AVAILABLE := false;
     client := None;
     RAG_AVAILABLE := true;
     retrieve_context := fun _ _ _ _ => Some [mkChunk (Some lecture)];
     json_loads := sample_loads;
     repr_compound := fun _ => "" |}.

(** The document service failed to import. *)
Definition no_rag_env : Env :=
  {| GROQ_AVAILABLE := true;
     client := Some chatty_backend;
     RAG_AVAILABLE := false;
     retrieve_context := fun _ _ _ _ => None;
     json_loads := sample_loads;
     repr_compound := fun _ => "" |}.

(** Fifty characters of study material only. *)
Definition thin_env : Env :=
  {| GROQ_AVAILABLE := true;
     client := Some chatty_backend;
     RAG_AVAILABLE := true;
     retrieve_context := fun _ _ _ _ =>
       Some [mkChunk (Some "0123456789012345678901234");
             mkChunk (Some "012345678901234567890123")];
     json_loads := sample_loads;
     repr_compound := fun _ => "" |}.


(** ** Invariants *)

(** What one entry into the single-question wrapper does to the world: no
    retrieval, one more client invocation, at most one more request. *)
Definition mcq_effect (E : Env) (context : string) (asked : gset string)
    (w w' : World) : Prop :=
  rag_calls w' = rag_calls w
  /\ client_calls w' = (client_calls w ++ [McqCall])%list
  /\ (llm_requests w' = llm_requests w
      \/ (groq_unusable E = false
          /\ llm_requests w' = (llm_requests w ++ [mcq_request context asked])%list)).

(** What holds of the local variables of the retry loop, started in the
    world [w0] with the quota [count], whenever the loop test is evaluated
    in the world [w]. *)
Record quiz_invariant (E : Env) (count : nat) (w0 : World) (st : QuizLoop)
    (w : World) : Prop := mkQuizInvariant {
  inv_shape :
    Forall (fun q => well_formed_mcq q = true /\ decoded E q) (questions st);
  inv_keys :
    forall k, k ∈ asked_questions st <-> Some k ∈ question_key <$> questions st;
  inv_nodup : NoDup (question_key <$> questions st);
  inv_quota : length (questions st) <= count;
  inv_found : length (questions st) <= attempts st;
  inv_budget : attempts st <= count * 4;
  inv_rag : rag_calls w = rag_calls w0;
  inv_calls : client_calls w = (client_calls w0 ++ repeat McqCall (attempts st))%list;
  inv_requests : length (llm_requests w) <= length (llm_requests w0) + attempts st
}.

(** What one entry into the batch wrapper does to the world: no retrieval,
    one more client invocation, and one request exactly when the client is
    usable. *)
Definition flashcard_effect (E : Env) (context : string) (count : nat)
    (w w' : World) : Prop :=
  rag_calls w' = rag_calls w
  /\ client_calls w' = (client_calls w ++ [FlashcardCall count])%list
  /\ llm_requests w'
     = if groq_unusable E then llm_requests w
       else (llm_requests w ++ [flashcard_request context count])%list.

(** A flashcard of the result: the canonical and the alias fields with the
    same two texts, both trimmed and not empty. *)
Definition flashcard_shape (v : pyval) : Prop :=
  exists front back,
    v = flashcard front back
    /\ Str.strip front = front /\ Str.strip back = back
    /\ Str.nonempty (Str.strip front) = true
    /\ Str.nonempty (Str.strip back) = true.

(** The Deduplication Tracker of the specification, as one step on the
    local variables of the loop: the attempt is consumed; the candidate [v]
    is kept exactly when it has a key and the key is not in the set. *)
Definition dedup_step (st : QuizLoop) (v : pyval) : QuizLoop :=
  match question_key v with
  | Some k =>
      if bool_decide (k ∈ asked_questions st)
      then mkQuizLoop (questions st) (asked_questions st) (attempts st + 1)
      else mkQuizLoop (questions st ++ [v]) (asked_questions st ∪ {[ k ]})
             (attempts st + 1)
  | None => mkQuizLoop (questions st) (asked_questions st) (attempts st + 1)
  end.

(** The three ways [generate_quiz] ends, with the world it leaves. *)
Definition quiz_outcome (E : Env) (subject_id unit_id : Z)
    (difficulty : string) (w : World) (envelope : pyval) (w' : World) : Prop :=
  let count := dict_get DIFFICULTY_QUESTION_COUNT difficulty 8 in
  let context := quiz_context E subject_id unit_id w in
  let w1 := log_retrieval (subject_id, unit_id, 40%Z) w in
  (RAG_AVAILABLE E = false
   /\ envelope = _empty_quiz "Document service not available" /\ w' = w)
  \/ (RAG_AVAILABLE E = true /\ String.length context < 200
      /\ envelope = _empty_quiz "Insufficient content" /\ w' = w1)
  \/ (RAG_AVAILABLE E = true /\ 200 <= String.length context
      /\ exists st,
           quiz_loop E context count w1 = (Ok st, w')
           /\ quiz_invariant E count w1 st w'
           /\ quiz_continue count (count * 4) st = false
           /\ envelope = match questions st with
                         | [] => _empty_quiz "MCQ generation failed"
                         | _ => quiz_success difficulty (questions st)
                         end).

(** The success envelope of [generate_flashcards] (lines 262-266). *)
Definition flashcards_success (difficulty : string) (cards : list pyval)
    : pyval :=
  PDict [ ("success", PBool true); ("difficulty", PStr difficulty);
          ("flashcards", PList cards) ].

(** The world in which the retry loop of
    [generate_quiz chatty_env 1 1 "medium"] starts, and the run of that loop. *)
Definition chatty_start : World := log_retrieval (1%Z, 1%Z, 40%Z) world0.

Definition chatty_loop_end : outcome QuizLoop * World :=
  quiz_loop chatty_env (quiz_context chatty_env 1 1 world0)
    (dict_get DIFFICULTY_QUESTION_COUNT "medium" 8) chatty_start.

(** The three ways [generate_flashcards] ends, with the world it leaves. *)
Definition flashcards_outcome (E : Env) (subject_id unit_id : Z)
    (difficulty : string) (w : World) (envelope : pyval) (w' : World) : Prop :=
  let count := dict_get FLASHCARD_COUNT difficulty 8 in
  let context := flashcard_context E subject_id unit_id w in
  let w1 := log_retrieval (subject_id, unit_id, 30%Z) w in
  (RAG_AVAILABLE E = false /\ envelope = flashcards_failure /\ w' = w)
  \/ (RAG_AVAILABLE E = true /\ String.length context < 200
      /\ envelope = flashcards_failure /\ w' = w1)
  \/ (RAG_AVAILABLE E = true /\ 200 <= String.length context
      /\ exists cards,
           _generate_flashcards_from_context E context count w1 = (Ok cards, w')
           /\ Forall flashcard_shape cards
           /\ flashcard_effect E context count w1 w'
           /\ envelope = flashcards_success difficulty cards).

(** The three messages of [generate_quiz]. *)
Definition quiz_messages : list string :=
  [ "Document service not available"; "Insufficient content";
    "MCQ generation failed" ].

(** ** Further definitions: texts *)

(** [c in s] for one character *)
Fixpoint has_char (c : ascii) (s : string) : bool :=
  match s with
  | EmptyString => false
  | String c' r => Ascii.eqb c' c || has_char c r
  end.

(** Every character of [s] is white space. *)
Fixpoint all_space (s : string) : bool :=
  match s with
  | EmptyString => true
  | String c r => Str.isspace c && all_space r
  end.

(** [isinstance(v, dict)] *)
Definition is_dict (v : pyval) : bool :=
  match v with PDict _ => true | _ => false end.

(** ** Further sample environments *)

(** A batch reply whose array holds a number between two cards. *)
Definition mixed_literal : string :=
  "[{" +:+ Str.quoted "front" +:+ ": " +:+ Str.quoted "F" +:+ ", "
  +:+ Str.quoted "back" +:+ ": " +:+ Str.quoted "B" +:+ "}, 7, {"
  +:+ Str.quoted "front" +:+ ": " +:+ Str.quoted "G" +:+ ", "
  +:+ Str.quoted "back" +:+ ": " +:+ Str.quoted "H" +:+ "}]".

(** [json.loads(mixed_literal)] *)
Definition mixed_value : list pyval :=
  [ PDict [ ("front", PStr "F"); ("back", PStr "B") ];
    PInt 7;
    PDict [ ("front", PStr "G"); ("back", PStr "H") ] ].

Definition mixed_backend (w : World) (req : ChatRequest) : option string :=
  Some mixed_literal.

Definition mixed_env : Env :=
  {| GROQ_AVAILABLE := true;
     client := Some mixed_backend;
     RAG_AVAILABLE := true;
     retrieve_context := fun _ _ _ _ => Some [mkChunk (Some lecture)];
     json_loads := fun s =>
       if String.eqb s mixed_literal then Some (PList mixed_value) else None;
     repr_compound := fun _ => "" |}.

(** A document service that raises on every retrieval. *)
Definition broken_rag_env : Env :=
  {| GROQ_AVAILABLE := true;
     client := Some chatty_backend;
     RAG_AVAILABLE := true;
     retrieve_context := fun _ _ _ _ => None;
     json_loads := sample_loads;
     repr_compound := fun _ => "" |}.

(** ** GROQ SETUP *)

(** Lines 21-37 of the module, run once at import.  [Groq] is what the
    import binds ([None] when the import raises): applied to the key it
    builds the client, or raises ([None]); [GROQ_API_KEY] is the
    environment variable.  The result is the pair of the module-level
    [GROQ_AVAILABLE] and [client]. *)
Definition groq_setup
    (Groq : option (string -> option (World -> ChatRequest -> option string)))
    (GROQ_API_KEY : option string)
    : bool * option (World -> ChatRequest -> option string) :=
  match Groq with
  | None => (false, None)
  | Some connect =>
      let api_key := Str.strip (default "" GROQ_API_KEY) in
      if Str.nonempty api_key && String.prefix "gsk_" api_key then
        match connect api_key with
        | Some backend => (true, Some backend)
        | None => (false, None)
        end
      else (false, None)
  end.

(** The sum of the lengths of some texts. *)
Definition total_length (texts : list string) : nat :=
  foldr (fun t n => String.length t + n) 0 texts.

(** ** Password strength ([backend/services/auth_service.py]) *)

(** [re.search(cls, s)] for a class [cls] of single characters: whether
    some character of [s] is in the class. *)
Fixpoint search_class (cls : ascii -> bool) (s : string) : bool :=
  match s with
  | EmptyString => false
  | String c r => cls c || search_class cls r
  end.

(** [[A-Z]] *)
Definition upper_class (c : ascii) : bool :=
  let n := nat_of_ascii c in ((65 <=? n) && (n <=? 90))%nat.

(** [[a-z]] *)
Definition lower_class (c : ascii) : bool :=
  let n := nat_of_ascii c in ((97 <=? n) && (n <=? 122))%nat.

(** [[0-9]] *)
Definition digit_class (c : ascii) : bool :=
  let n := nat_of_ascii c in ((48 <=? n) && (n <=? 57))%nat.

(** The characters of the class of line 44 (the backslash of the pattern
    only escapes the quote). *)
Definition special_characters : string :=
  "!@#$%^&*(),.?" +:+ Str.dq +:+ ":{}|<>".

Definition special_class (c : ascii) : bool := has_char c special_characters.

Definition validate_password_strength (password : string) : pyval :=
  if (String.length password <? 8)%nat then
    PStr "Password must be at least 8 characters long"
  else if negb (search_class upper_class password) then
    PStr "Password must contain at least one uppercase letter"
  else if negb (search_class lower_class password) then
    PStr "Password must contain at least one lowercase letter"
  else if negb (search_class digit_class password) then
    PStr "Password must contain at least one number"
  else if negb (search_class special_class password) then
    PStr "Password must contain at least one special character"
  else PNone.

(** ** Accounts ([backend/services/auth_service.py]) *)

(** What can go wrong in the account code: an exception of the Python
    core, an exception out of the database session, or one out of the
    password hasher. *)
Inductive failure : Type :=
| PythonError (e : exn)
| IndexError
| DatabaseError
| HashError.

(** A value, or an exception in flight. *)
Inductive result (A : Type) : Type :=
| Returned (a : A)
| Raised (e : failure).
Arguments Returned {A} a.
Arguments Raised {A} e.

Module User.

(** [backend.models.database] is not among the sources.  A row of its
    [User] table is given the columns that the sources read and write; the
    columns that are only copied into replies are left untyped, times are
    seconds. *)
Record t : Type := mk {
  id : Z;
  email : string;
  password_hash : string;
  username : string;
  mobile_number : pyval;
  dcet_reg_number : pyval;
  college_name : pyval;
  branch : pyval;
  semester : pyval;
  target_dcet_year : pyval;
  role : option string;
  email_verified : pyval;
  email_verify_token : option string;
  email_verify_token_expiry : option Z;
  reset_token : option string;
  reset_token_expiry : option Z
}.

End User.

(** A mail as [MIMEText] holds it. *)
Record Mail : Type := mkMail {
  mail_subject : string;
  mail_from : string;
  mail_to : string;
  mail_body : string
}.

(** The state the account code works on: the database, the clock
    ([datetime.utcnow()], in seconds), the number of random values drawn so
    far (tokens and salts), the SMTP sessions opened and the mails
    delivered, oldest first.  Opening and closing a database session and
    printing leave no trace in it. *)
Record Site (DB : Type) : Type := mkSite {
  db : DB;
  utcnow : Z;
  drawn : nat;
  smtp_sessions : list Mail;
  outbox : list Mail
}.
Arguments mkSite {DB} _ _ _ _ _.
Arguments db {DB} _.
Arguments utcnow {DB} _.
Arguments drawn {DB} _.
Arguments smtp_sessions {DB} _.
Arguments outbox {DB} _.

(** The configuration and the collaborators of the account code, over a
    database of any kind.
    - the five queries of the sources, each the [.first()] row of its
      filter;
    - [db.commit] with a new row waiting in the session ([commit_added]:
      the database with the row stored, and the row with the identity it
      was given), [db.refresh] (the row as the database holds it) and
      [db.commit] after attributes of a row were set ([commit]); a commit
      that raises leaves the database as it was, a refresh never writes;
    - [pbkdf2_sha256.hash], with the salt taken from the draw, and
      [pbkdf2_sha256.verify];
    - [jwt.encode] and [jwt.decode], the latter [None] when it raises
      [ExpiredSignatureError] or another [InvalidTokenError];
    - [secrets.token_urlsafe(32)], by draw;
    - the mail account of the environment, and whether an SMTP session
      for a mail goes through ([false]: it raises on the way). *)
Record AuthEnv (DB : Type) : Type := mkAuthEnv {
  SECRET_KEY : string;
  first_by_email : DB -> string -> result (option User.t);
  first_by_username : DB -> string -> result (option User.t);
  first_by_id : DB -> pyval -> result (option User.t);
  first_by_reset_token : DB -> string -> Z -> result (option User.t);
  first_by_verify_token : DB -> string -> Z -> result (option User.t);
  commit_added : DB -> User.t -> result (DB * User.t);
  refresh : DB -> User.t -> result User.t;
  commit : DB -> User.t -> result DB;
  pbkdf2_hash : nat -> string -> string;
  pbkdf2_verify : string -> string -> result bool;
  jwt_encode : pyval -> string -> string;
  jwt_decode : string -> string -> Z -> option pyval;
  token_urlsafe : nat -> string;
  EMAIL_USER : option string;
  EMAIL_PASS : option string;
  smtp_delivers : list Mail -> Mail -> bool
}.
Arguments SECRET_KEY {DB} _.
Arguments first_by_email {DB} _ _ _.
Arguments first_by_username {DB} _ _ _.
Arguments first_by_id {DB} _ _ _.
Arguments first_by_reset_token {DB} _ _ _ _.
Arguments first_by_verify_token {DB} _ _ _ _.
Arguments commit_added {DB} _ _ _.
Arguments refresh {DB} _ _ _.
Arguments commit {DB} _ _ _.
Arguments pbkdf2_hash {DB} _ _ _.
Arguments pbkdf2_verify {DB} _ _ _.
Arguments jwt_encode {DB} _ _ _.
Arguments jwt_decode {DB} _ _ _ _.
Arguments token_urlsafe {DB} _ _.
Arguments EMAIL_USER {DB} _.
Arguments EMAIL_PASS {DB} _.
Arguments smtp_delivers {DB} _ _ _.

(** Account code: state passing with exceptions. *)
Definition Act (S A : Type) : Type := S -> result A * S.

Definition act_ret {S A} (a : A) : Act S A := fun s => (Returned a, s).

Definition act_bind {S A B} (m : Act S A) (k : A -> Act S B) : Act S B :=
  fun s =>
    match m s with
    | (Returned a, s') => k a s'
    | (Raised e, s') => (Raised e, s')
    end.

Definition act_lift {S A} (r : result A) : Act S A := fun s => (r, s).

Declare Scope act_scope.
Delimit Scope act_scope with act.
Notation "x <~ c ;; k" := (act_bind c (fun x => k))
  (at level 100, c at next level, right associativity) : act_scope.
Notation "c ~;; k" := (act_bind c (fun _ => k))
  (at level 100, right associativity) : act_scope.
Local Open Scope act_scope.

(** [v[k]] for a string key, inside account code *)
Definition subscript (v : pyval) (k : string) : result pyval :=
  match v with
  | PDict entries =>
      match Py.lookup entries k with
      | Some x => Returned x
      | None => Raised (PythonError KeyError)
      end
  | _ => Raised (PythonError TypeError)
  end.

(** [v] as the JSON value of an optional string column. *)
Definition of_option (o : option string) : pyval :=
  match o with Some s => PStr s | None => PNone end.

(** CONFIG *)
Definition ALGORITHM : string := "HS256".
Definition ACCESS_TOKEN_EXPIRE_HOURS : Z := 24.
Definition EMAIL_VERIFY_EXPIRE_MINUTES : Z := 30.

Section Accounts.

Context {DB : Type}.
Variable A : AuthEnv DB.

(** *** The database session and the other collaborators *)

Definition query_email (email : string) : Act (Site DB) (option User.t) :=
  fun s => (first_by_email A (db s) email, s).

Definition query_username (username : string)
    : Act (Site DB) (option User.t) :=
  fun s => (first_by_username A (db s) username, s).

Definition query_id (user_id : pyval) : Act (Site DB) (option User.t) :=
  fun s => (first_by_id A (db s) user_id, s).

(** The filter on a reset token: the token, and an expiry after now. *)
Definition query_reset_token (token : string)
    : Act (Site DB) (option User.t) :=
  fun s => (first_by_reset_token A (db s) token (utcnow s), s).

Definition query_verify_token (token : string)
    : Act (Site DB) (option User.t) :=
  fun s => (first_by_verify_token A (db s) token (utcnow s), s).

(** [db.add(user)]: the row waits in the session; nothing is written
    before the commit. *)
Definition db_add (row : User.t) : Act (Site DB) User.t := act_ret row.

(** [db.commit()] with the row [pending] waiting in the session. *)
Definition db_commit_added (pending : User.t) : Act (Site DB) User.t :=
  fun s =>
    match commit_added A (db s) pending with
    | Returned (db', stored) =>
        (Returned stored,
         mkSite db' (utcnow s) (drawn s) (smtp_sessions s) (outbox s))
    | Raised e => (Raised e, s)
    end.

(** [db.refresh(user)] *)
Definition db_refresh (row : User.t) : Act (Site DB) User.t :=
  fun s => (refresh A (db s) row, s).

Definition db_commit (row : User.t) : Act (Site DB) unit :=
  fun s =>
    match commit A (db s) row with
    | Returned db' =>
        (Returned tt,
         mkSite db' (utcnow s) (drawn s) (smtp_sessions s) (outbox s))
    | Raised e => (Raised e, s)
    end.

Definition datetime_utcnow : Act (Site DB) Z :=
  fun s => (Returned (utcnow s), s).

Definition draw {B} (f : nat -> B) : Act (Site DB) B :=
  fun s =>
    (Returned (f (drawn s)),
     mkSite (db s) (utcnow s) (S (drawn s)) (smtp_sessions s) (outbox s)).

(** *** EMAIL VERIFICATION HELPERS *)

Definition create_email_verification_token : Act (Site DB) string :=
  draw (token_urlsafe A).

(** *** JWT HELPERS *)

Definition create_access_token (user_id : Z) (role : pyval)
    : Act (Site DB) string :=
  now <~ datetime_utcnow ;;
  let payload :=
    PDict [ ("user_id", PInt user_id);
            ("role", role);
            ("exp", PInt (now + ACCESS_TOKEN_EXPIRE_HOURS * 3600)) ] in
  act_ret (jwt_encode A payload (SECRET_KEY A)).

Definition verify_token (token : string) : Act (Site DB) pyval :=
  now <~ datetime_utcnow ;;
  match jwt_decode A token (SECRET_KEY A) now with
  | Some payload =>
      act_ret (PDict [ ("success", PBool true); ("payload", payload) ])
  | None => act_ret (PDict [ ("success", PBool false) ])
  end.

(** [(user.role or "").strip().lower()] *)
Definition normal_role (u : User.t) : string :=
  Str.lower (Str.strip (default "" (User.role u))).

Definition get_current_user (token : string) : Act (Site DB) pyval :=
  result <~ verify_token token ;;
  success <~ act_lift (subscript result "success") ;;
  if negb (Py.truthy success) then act_ret PNone
  else
    payload <~ act_lift (subscript result "payload") ;;
    user_id <~ act_lift (subscript payload "user_id") ;;
    user <~ query_id user_id ;;
    match user with
    | None => act_ret PNone
    | Some user =>
        act_ret
          (PDict [ ("id", PInt (User.id user));
                   ("email", PStr (User.email user));
                   ("username", PStr (User.username user));
                   ("mobile_number", User.mobile_number user);
                   ("dcet_reg_number", User.dcet_reg_number user);
                   ("college_name", User.college_name user);
                   ("branch", User.branch user);
                   ("semester", User.semester user);
                   ("target_dcet_year", User.target_dcet_year user);
                   ("role", PStr (normal_role user));
                   ("email_verified", User.email_verified user) ])
    end.

(** *** STUDENT REGISTER *)

Definition student_register (email password username dcet_reg_number
    college_name : string) (mobile_number : option string)
    : Act (Site DB) pyval :=
  let email := Str.lower (Str.strip email) in
  let username := Str.strip username in
  let password_error := validate_password_strength password in
  if Py.truthy password_error then
    act_ret (PDict [ ("success", PBool false); ("message", password_error) ])
  else
    taken <~ query_email email ;;
    if bool_decide (is_Some taken) then
      act_ret (PDict [ ("success", PBool false);
                       ("message", PStr "Email already registered") ])
    else
      taken <~ query_username username ;;
      if bool_decide (is_Some taken) then
        act_ret (PDict [ ("success", PBool false);
                         ("message", PStr "Username already taken") ])
      else
        verify_token <~ create_email_verification_token ;;
        now <~ datetime_utcnow ;;
        let verify_expiry := (now + EMAIL_VERIFY_EXPIRE_MINUTES * 60)%Z in
        password_hash <~ draw (fun salt => pbkdf2_hash A salt password) ;;
        user <~ db_add
                  {| User.id := 0;
                     User.email := email;
                     User.password_hash := password_hash;
                     User.username := username;
                     User.mobile_number :=
                       match mobile_number with
                       | Some m =>
                           if Str.nonempty m then PStr (Str.strip m) else PNone
                       | None => PNone
                       end;
                     User.dcet_reg_number := PStr (Str.strip dcet_reg_number);
                     User.college_name := PStr (Str.strip college_name);
                     User.branch := PNone;
                     User.semester := PNone;
                     User.target_dcet_year := PNone;
                     User.role := Some "student";
                     User.email_verified := PBool false;
                     User.email_verify_token := Some verify_token;
                     User.email_verify_token_expiry := Some verify_expiry;
                     User.reset_token := None;
                     User.reset_token_expiry := None |} ;;
        user <~ db_commit_added user ;;
        user <~ db_refresh user ;;
        act_ret
          (PDict [ ("success", PBool true);
                   ("message",
                    PStr "Registration successful. Verification email sent.");
                   ("user",
                    PDict [ ("id", PInt (User.id user));
                            ("email", PStr (User.email user));
                            ("username", PStr (User.username user));
                            ("role", of_option (User.role user)) ]) ]).

(** *** STUDENT LOGIN *)

Definition student_login (email password : string) : Act (Site DB) pyval :=
  let email := Str.lower (Str.strip email) in
  user <~ query_email email ;;
  match user with
  | None =>
      act_ret (PDict [ ("success", PBool false);
                       ("message", PStr "Invalid email or password") ])
  | Some user =>
      let role := normal_role user in
      if negb (String.eqb role "student") then
        act_ret (PDict [ ("success", PBool false);
                         ("message", PStr "Not a student account") ])
      else
        ok <~ act_lift (pbkdf2_verify A password (User.password_hash user)) ;;
        if negb ok then
          act_ret (PDict [ ("success", PBool false);
                           ("message", PStr "Invalid email or password") ])
        else
          token <~ create_access_token (User.id user) (PStr role) ;;
          act_ret
            (PDict [ ("success", PBool true);
                     ("message", PStr "Login successful");
                     ("token", PStr token);
                     ("user",
                      PDict [ ("id", PInt (User.id user));
                              ("email", PStr (User.email user));
                              ("username", PStr (User.username user));
                              ("dcet_reg_number", User.dcet_reg_number user);
                              ("college_name", User.college_name user);
                              ("role", PStr role);
                              ("email_verified", User.email_verified user) ]) ])
  end.

(** *** ADMIN LOGIN *)

Definition admin_login (username password : string) : Act (Site DB) pyval :=
  let username := Str.strip username in
  user <~ query_username username ;;
  match user with
  | None =>
      act_ret (PDict [ ("success", PBool false);
                       ("message", PStr "Invalid credentials") ])
  | Some user =>
      let role := normal_role user in
      if negb (String.eqb role "admin") then
        act_ret (PDict [ ("success", PBool false);
                         ("message", PStr "Invalid credentials") ])
      else
        ok <~ act_lift (pbkdf2_verify A password (User.password_hash user)) ;;
        if negb ok then
          act_ret (PDict [ ("success", PBool false);
                           ("message", PStr "Invalid credentials") ])
        else
          token <~ create_access_token (User.id user) (PStr role) ;;
          act_ret
            (PDict [ ("success", PBool true);
                     ("message", PStr "Admin login successful");
                     ("token", PStr token);
                     ("user",
                      PDict [ ("id", PInt (User.id user));
                              ("username", PStr (User.username user));
                              ("role", PStr role) ]) ])
  end.

(** *** FORGOT / RESET PASSWORD *)

Definition get_user_by_email (email : string) : Act (Site DB) pyval :=
  let email := Str.lower (Str.strip email) in
  user <~ query_email email ;;
  match user with
  | None => act_ret PNone
  | Some user =>
      act_ret (PDict [ ("id", PInt (User.id user));
                       ("email", PStr (User.email user)) ])
  end.

Definition with_reset_token (u : User.t) (token : option string)
    (expiry : option Z) : User.t :=
  {| User.id := User.id u;
     User.email := User.email u;
     User.password_hash := User.password_hash u;
     User.username := User.username u;
     User.mobile_number := User.mobile_number u;
     User.dcet_reg_number := User.dcet_reg_number u;
     User.college_name := User.college_name u;
     User.branch := User.branch u;
     User.semester := User.semester u;
     User.target_dcet_year := User.target_dcet_year u;
     User.role := User.role u;
     User.email_verified := User.email_verified u;
     User.email_verify_token := User.email_verify_token u;
     User.email_verify_token_expiry := User.email_verify_token_expiry u;
     User.reset_token := token;
     User.reset_token_expiry := expiry |}.

Definition with_password_hash (u : User.t) (password_hash : string) : User.t :=
  {| User.id := User.id u;
     User.email := User.email u;
     User.password_hash := password_hash;
     User.username := User.username u;
     User.mobile_number := User.mobile_number u;
     User.dcet_reg_number := User.dcet_reg_number u;
     User.college_name := User.college_name u;
     User.branch := User.branch u;
     User.semester := User.semester u;
     User.target_dcet_year := User.target_dcet_year u;
     User.role := User.role u;
     User.email_verified := User.email_verified u;
     User.email_verify_token := User.email_verify_token u;
     User.email_verify_token_expiry := User.email_verify_token_expiry u;
     User.reset_token := User.reset_token u;
     User.reset_token_expiry := User.reset_token_expiry u |}.

Definition save_reset_token (user_id : pyval) (token : string) (expiry : Z)
    : Act (Site DB) pyval :=
  user <~ query_id user_id ;;
  match user with
  | Some user =>
      db_commit (with_reset_token user (Some token) (Some expiry)) ~;;
      act_ret PNone
  | None => act_ret PNone
  end.

Definition get_user_by_reset_token (token : string) : Act (Site DB) pyval :=
  user <~ query_reset_token token ;;
  match user with
  | None => act_ret PNone
  | Some user =>
      act_ret (PDict [ ("id", PInt (User.id user));
                       ("email", PStr (User.email user)) ])
  end.

Definition update_user_password (user_id : pyval) (new_password : string)
    : Act (Site DB) pyval :=
  let password_error := validate_password_strength new_password in
  if Py.truthy password_error then
    act_ret (PDict [ ("success", PBool false); ("message", password_error) ])
  else
    user <~ query_id user_id ;;
    match user with
    | Some user =>
        password_hash <~ draw (fun salt => pbkdf2_hash A salt new_password) ;;
        db_commit (with_password_hash user password_hash) ~;;
        act_ret (PDict [ ("success", PBool true) ])
    | None => act_ret PNone
    end.

Definition clear_reset_token (user_id : pyval) : Act (Site DB) pyval :=
  user <~ query_id user_id ;;
  match user with
  | Some user =>
      db_commit (with_reset_token user None None) ~;;
      act_ret PNone
  | None => act_ret PNone
  end.

End Accounts.

(** ** Mail ([backend/utils/mailer.py]) *)

(** Truth value of [os.getenv(name)] *)
Definition env_set (v : option string) : bool :=
  match v with Some s => Str.nonempty s | None => false end.

Definition reset_mail_body (reset_link : string) : string :=
  Str.join Str.nl
    [ "";
      "Hello,";
      "";
      "We received a request to reset your password.";
      "";
      "Click the link below to reset it:";
      reset_link;
      "";
      "This link will expire in 30 minutes.";
      "";
      "If you did not request this, please ignore this email.";
      "";
      "Regards,";
      "Intelligent DCET Preparation Platform";
      "" ].

Section Mailer.

Context {DB : Type}.
Variable A : AuthEnv DB.

(** [with smtplib.SMTP_SSL(...) as server: login; send_message] inside
    [try ... except Exception]. *)
Definition smtp_session (msg : Mail) : Act (Site DB) unit :=
  fun s =>
    let opened := (smtp_sessions s ++ [msg])%list in
    if smtp_delivers A (smtp_sessions s) msg then
      (Returned tt,
       mkSite (db s) (utcnow s) (drawn s) opened (outbox s ++ [msg])%list)
    else
      (Returned tt, mkSite (db s) (utcnow s) (drawn s) opened (outbox s)).

Definition send_reset_email (to_email reset_link : string)
    : Act (Site DB) unit :=
  let sender_email := EMAIL_USER A in
  let sender_password := EMAIL_PASS A in
  if negb (env_set sender_email) || negb (env_set sender_password) then
    act_ret tt
  else
    let msg :=
      {| mail_subject := "Password Reset - DCET Platform";
         mail_from := default "" sender_email;
         mail_to := to_email;
         mail_body := reset_mail_body reset_link |} in
    smtp_session msg.

End Mailer.

(** ** Routes ([backend/routes/auth_routes.py]) *)

(** What a handler hands to Flask. *)
Inductive Response : Type :=
| Json (body : pyval) (status : Z)
| Redirect (location : string).

(** [s.split(sep)] for a separator of one character *)
Fixpoint split_on (sep : ascii) (s : string) : list string :=
  match s with
  | EmptyString => [EmptyString]
  | String c r =>
      if Ascii.eqb c sep then EmptyString :: split_on sep r
      else
        match split_on sep r with
        | piece :: pieces => String c piece :: pieces
        | [] => [String c EmptyString]
        end
  end.

(** [data.get(k, "")] on the body of a request: a JSON object whose
    values are strings. *)
Definition form_get (data : list (string * string)) (k : string) : string :=
  match List.find (fun kv => String.eqb (fst kv) k) data with
  | Some kv => snd kv
  | None => ""
  end.

Definition with_email_verified (u : User.t) : User.t :=
  {| User.id := User.id u;
     User.email := User.email u;
     User.password_hash := User.password_hash u;
     User.username := User.username u;
     User.mobile_number := User.mobile_number u;
     User.dcet_reg_number := User.dcet_reg_number u;
     User.college_name := User.college_name u;
     User.branch := User.branch u;
     User.semester := User.semester u;
     User.target_dcet_year := User.target_dcet_year u;
     User.role := User.role u;
     User.email_verified := PBool true;
     User.email_verify_token := None;
     User.email_verify_token_expiry := None;
     User.reset_token := User.reset_token u;
     User.reset_token_expiry := User.reset_token_expiry u |}.

Section Routes.

Context {DB : Type}.
Variable A : AuthEnv DB.

Definition login_route (data : list (string * string))
    : Act (Site DB) Response :=
  let email := Str.strip (form_get data "email") in
  let password := form_get data "password" in
  if negb (Str.nonempty email) || negb (Str.nonempty password) then
    act_ret (Json (PDict [ ("success", PBool false);
                           ("message",
                            PStr "Email and password are required") ]) 200)
  else
    result <~ student_login A email password ;;
    act_ret (Json result 200).

Definition admin_login_route (data : list (string * string))
    : Act (Site DB) Response :=
  let username := Str.strip (form_get data "username") in
  let password := form_get data "password" in
  if negb (Str.nonempty username) || negb (Str.nonempty password) then
    act_ret (Json (PDict [ ("success", PBool false);
                           ("message",
                            PStr "Username and password are required") ]) 200)
  else
    result <~ admin_login A username password ;;
    act_ret (Json result 200).

(** [auth_header] is [request.headers.get("Authorization", "")]. *)
Definition verify_token_route (auth_header : string)
    : Act (Site DB) Response :=
  if negb (String.prefix "Bearer " auth_header) then
    act_ret (Json (PDict [ ("success", PBool false);
                           ("message", PStr "No token provided") ]) 401)
  else
    token <~ act_lift
               match split_on " " auth_header with
               | _ :: token :: _ => Returned token
               | _ => Raised IndexError
               end ;;
    user <~ get_current_user A token ;;
    if Py.truthy user then
      act_ret (Json (PDict [ ("success", PBool true); ("user", user) ]) 200)
    else
      act_ret (Json (PDict [ ("success", PBool false);
                             ("message", PStr "Invalid token") ]) 401).

Definition forgot_password_route (data : list (string * string))
    : Act (Site DB) Response :=
  let email := Str.strip (form_get data "email") in
  if negb (Str.nonempty email) then
    act_ret (Json (PDict [ ("success", PBool true) ]) 200)
  else
    user <~ get_user_by_email A email ;;
    if negb (Py.truthy user) then
      act_ret (Json (PDict [ ("success", PBool true) ]) 200)
    else
      token <~ draw (token_urlsafe A) ;;
      now <~ datetime_utcnow ;;
      let expiry := (now + 30 * 60)%Z in
      user_id <~ act_lift (subscript user "id") ;;
      save_reset_token A user_id token expiry ~;;
      let reset_link := "http://127.0.0.1:5000/reset-password/" +:+ token in
      send_reset_email A email reset_link ~;;
      act_ret (Json (PDict [ ("success", PBool true);
                             ("message",
                              PStr "Password reset link sent to your email") ])
                 200).

Definition reset_password_route (token : string)
    (data : list (string * string)) : Act (Site DB) Response :=
  let new_password := form_get data "password" in
  if negb (Str.nonempty new_password) then
    act_ret (Json (PDict [ ("success", PBool false);
                           ("message", PStr "Password is required") ]) 200)
  else
    user <~ get_user_by_reset_token A token ;;
    if negb (Py.truthy user) then
      act_ret (Json (PDict [ ("success", PBool false);
                             ("message",
                              PStr "Invalid or expired reset link") ]) 200)
    else
      user_id <~ act_lift (subscript user "id") ;;
      update_user_password A user_id new_password ~;;
      user_id <~ act_lift (subscript user "id") ;;
      clear_reset_token A user_id ~;;
      act_ret (Json (PDict [ ("success", PBool true);
                             ("message",
                              PStr "Password updated successfully") ]) 200).

Definition verify_email_route (token : string) : Act (Site DB) Response :=
  user <~ query_verify_token A token ;;
  match user with
  | None => act_ret (Redirect "/?verify=failed")
  | Some user =>
      let user := with_email_verified user in
      db_commit A user ~;;
      jwt_token <~ create_access_token A (User.id user)
                     (of_option (User.role user)) ;;
      act_ret (Redirect ("/dashboard?token=" +:+ jwt_token))
  end.

End Routes.

(** ** A sample site *)

Definition with_id (u : User.t) (id : Z) : User.t :=
  {| User.id := id;
     User.email := User.email u;
     User.password_hash := User.password_hash u;
     User.username := User.username u;
     User.mobile_number := User.mobile_number u;
     User.dcet_reg_number := User.dcet_reg_number u;
     User.college_name := User.college_name u;
     User.branch := User.branch u;
     User.semester := User.semester u;
     User.target_dcet_year := User.target_dcet_year u;
     User.role := User.role u;
     User.email_verified := User.email_verified u;
     User.email_verify_token := User.email_verify_token u;
     User.email_verify_token_expiry := User.email_verify_token_expiry u;
     User.reset_token := User.reset_token u;
     User.reset_token_expiry := User.reset_token_expiry u |}.

(** A live token in a column: the token, and an expiry after [now]. *)
Definition live_token (column : option string) (expiry : option Z)
    (token : string) (now : Z) : bool :=
  match column, expiry with
  | Some t, Some e => String.eqb t token && (now <? e)%Z
  | _, _ => false
  end.

(** The identity that a list of rows gives its next row: one more than
    the largest in use. *)
Definition next_id (rows : list User.t) : Z :=
  (1 + fold_right Z.max 0 (map User.id rows))%Z.

(** A database that is a list of rows, a hasher that appends the salt to
    the password, tokens that carry the id in the clear, a mail account
    whose sessions all go through. *)
Definition table_env : AuthEnv (list User.t) :=
  {| SECRET_KEY := "dcet-quiz-secret-key-2024";
     first_by_email := fun rows email =>
       Returned (List.find (fun u => String.eqb (User.email u) email) rows);
     first_by_username := fun rows username =>
       Returned (List.find (fun u => String.eqb (User.username u) username) rows);
     first_by_id := fun rows user_id =>
       match user_id with
       | PInt z => Returned (List.find (fun u => (User.id u =? z)%Z) rows)
       | _ => Returned None
       end;
     first_by_reset_token := fun rows token now =>
       Returned (List.find
                   (fun u => live_token (User.reset_token u)
                               (User.reset_token_expiry u) token now) rows);
     first_by_verify_token := fun rows token now =>
       Returned (List.find
                   (fun u => live_token (User.email_verify_token u)
                               (User.email_verify_token_expiry u) token now)
                   rows);
     commit_added := fun rows row =>
       let row' := with_id row (next_id rows) in
       Returned ((rows ++ [row'])%list, row');
     refresh := fun rows row =>
       match List.find (fun u => (User.id u =? User.id row)%Z) rows with
       | Some u => Returned u
       | None => Raised DatabaseError
       end;
     commit := fun rows row =>
       Returned (map (fun u => if (User.id u =? User.id row)%Z then row else u)
                   rows);
     pbkdf2_hash := fun salt password => password +:+ "#" +:+ Str.of_nat salt;
     pbkdf2_verify := fun password password_hash =>
       Returned (String.prefix (password +:+ "#") password_hash);
     jwt_encode := fun payload key =>
       match subscript payload "user_id" with
       | Returned (PInt z) => "jwt." +:+ Str.of_Z z
       | _ => "jwt"
       end;
     jwt_decode := fun token key now =>
       if String.eqb token "jwt.1"
       then Some (PDict [ ("user_id", PInt 1); ("role", PStr "student") ])
       else None;
     token_urlsafe := fun n => "tok" +:+ Str.of_nat n;
     EMAIL_USER := Some "noreply@example.org";
     EMAIL_PASS := Some "app-password";
     smtp_delivers := fun _ _ => true |}.

(** One student, registered at time 0 through [student_register]. *)
Definition asha : User.t :=
  {| User.id := 1;
     User.email := "asha@example.org";
     User.password_hash := "Dcet@2024#1";
     User.username := "asha";
     User.mobile_number := PNone;
     User.dcet_reg_number := PStr "DCET1";
     User.college_name := PStr "GPT";
     User.branch := PNone;
     User.semester := PNone;
     User.target_dcet_year := PNone;
     User.role := Some "student";
     User.email_verified := PBool false;
     User.email_verify_token := Some "tok0";
     User.email_verify_token_expiry := Some 1800%Z;
     User.reset_token := None;
     User.reset_token_expiry := None |}.

Definition empty_site : Site (list User.t) := mkSite [] 0 0 [] [].

(** The same database behind a connection that is lost after every commit
    of a new row: [db.refresh] raises. *)
Definition stale_env : AuthEnv (list User.t) :=
  {| SECRET_KEY := SECRET_KEY table_env;
     first_by_email := first_by_email table_env;
     first_by_username := first_by_username table_env;
     first_by_id := first_by_id table_env;
     first_by_reset_token := first_by_reset_token table_env;
     first_by_verify_token := first_by_verify_token table_env;
     commit_added := commit_added table_env;
     refresh := fun _ _ => Raised DatabaseError;
     commit := commit table_env;
     pbkdf2_hash := pbkdf2_hash table_env;
     pbkdf2_verify := pbkdf2_verify table_env;
     jwt_encode := jwt_encode table_env;
     jwt_decode := jwt_decode table_env;
     token_urlsafe := token_urlsafe table_env;
     EMAIL_USER := EMAIL_USER table_env;
     EMAIL_PASS := EMAIL_PASS table_env;
     smtp_delivers := smtp_delivers table_env |}.

Definition asha_site : Site (list User.t) := mkSite [asha] 0 2 [] [].

(** The site after Asha asked for a reset link at time 0. *)
Definition asha_reset_mail : Mail :=
  mkMail "Password Reset - DCET Platform" "noreply@example.org"
    "asha@example.org"
    (reset_mail_body "http://127.0.0.1:5000/reset-password/tok2").

Definition asha_reset_site : Site (list User.t) :=
  mkSite [with_reset_token asha (Some "tok2") (Some 1800%Z)] 0 3
    [asha_reset_mail] [asha_reset_mail].

(** The first word of [s]: its characters before the first blank. *)
Fixpoint first_word (s : string) : string :=
  match s with
  | EmptyString => EmptyString
  | String c r => if Ascii.eqb c " " then EmptyString else String c (first_word r)
  end.

(** The reply of [verify_token_route] once the token was looked up. *)
Definition token_reply (user : pyval) : Response :=
  if Py.truthy user then
    Json (PDict [ ("success", PBool true); ("user", user) ]) 200
  else
    Json (PDict [ ("success", PBool false);
                  ("message", PStr "Invalid token") ]) 401.

(** The mail that [send_reset_email] builds. *)
Definition reset_mail {DB : Type} (A : AuthEnv DB) (to_email reset_link : string)
    : Mail :=
  {| mail_subject := "Password Reset - DCET Platform";
     mail_from := default "" (EMAIL_USER A);
     mail_to := to_email;
     mail_body := reset_mail_body reset_link |}.

(** A database that finds again, by its email, the row that was just
    added, with the columns it was given. *)
Definition keeps_rows {DB : Type} (A : AuthEnv DB) : Prop :=
  forall db row db' stored row',
    first_by_email A db (User.email row) = Returned None ->
    commit_added A db row = Returned (db', stored) ->
    refresh A db' stored = Returned row' ->
    first_by_email A db' (User.email row) = Returned (Some row')
    /\ User.role row' = User.role row
    /\ User.password_hash row' = User.password_hash row.

(** A hasher that accepts the hashes it made. *)
Definition hasher_sound {DB : Type} (A : AuthEnv DB) : Prop :=
  forall salt password,
    pbkdf2_verify A password (pbkdf2_hash A salt password) = Returned true.
(** ** Trimming *)

Lemma lstrip_head (s : string) :
  Str.lstrip s = EmptyString
  \/ exists c r, Str.lstrip s = String c r /\ Str.isspace c = false.
Proof.
  induction s as [|c r IH]; simpl; [now left|].
  destruct (Str.isspace c) eqn:Hc; [exact IH|].
  right. now exists c, r.
Qed.

Lemma rstrip_idempotent (s : string) : Str.rstrip (Str.rstrip s) = Str.rstrip s.
Proof.
  induction s as [|c r IH]; simpl; [reflexivity|].
  destruct (Str.isspace c && negb (Str.nonempty (Str.rstrip r))) eqn:Hc;
    simpl; [reflexivity|].
  now rewrite IH, Hc.
Qed.

Lemma strip_idempotent (s : string) : Str.strip (Str.strip s) = Str.strip s.
Proof.
  unfold Str.strip.
  destruct (lstrip_head s) as [-> | (c & r & -> & Hc)]; [reflexivity|].
  simpl. repeat (rewrite Hc; simpl).
  now rewrite rstrip_idempotent.
Qed.

Lemma nonempty_true (s : string) : Str.nonempty s = true <-> s <> EmptyString.
Proof. destruct s; simpl; split; (congruence || easy). Qed.

(** ** Reasoning about computations *)

Lemma returns_intro {A} (m : M A) (w : World) (Q : A -> World -> Prop) a w' :
  m w = (Ok a, w') -> Q a w' -> returns m w Q.
Proof. unfold returns. now intros ->. Qed.

Lemma returns_elim {A} (m : M A) (w : World) (Q : A -> World -> Prop) :
  returns m w Q -> exists a w', m w = (Ok a, w') /\ Q a w'.
Proof.
  unfold returns. destruct (m w) as [[a| |] w']; try easy.
  intros HQ. now exists a, w'.
Qed.

Lemma returns_mono {A} (m : M A) (w : World) (Q R : A -> World -> Prop) :
  returns m w Q -> (forall a w', Q a w' -> R a w') -> returns m w R.
Proof.
  unfold returns. destruct (m w) as [[a| |] w']; try easy.
  intros HQ HR. now apply HR.
Qed.


Lemma returns_bind {A B} (m : M A) (k : A -> M B) (w : World)
    (Q : B -> World -> Prop) :
  returns m w (fun a w' => returns (k a) w' Q) -> returns (bind m k) w Q.
Proof.
  unfold returns, bind. now destruct (m w) as [[a| |] w'].
Qed.

Lemma returns_ret {A} (a : A) (w : World) (Q : A -> World -> Prop) :
  Q a w -> returns (ret a) w Q.
Proof. easy. Qed.

Lemma bind_run {A B} (m : M A) (k : A -> M B) (w w' : World) a :
  m w = (Ok a, w') -> bind m k w = k a w'.
Proof. unfold bind. now intros ->. Qed.

(** The rule of the bounded loop: an invariant kept by every iteration and
    a measure that every iteration lowers; a bound of at least the measure
    is never used up. *)
Lemma while_returns {S} (I : S -> World -> Prop) (measure : S -> nat)
    (cond : S -> bool) (body : S -> M S) :
  (forall s w, I s w -> cond s = true ->
     returns (body s) w (fun s' w' => I s' w' /\ measure s' < measure s)) ->
  forall fuel s w, I s w -> measure s <= fuel ->
    returns (while fuel cond body s) w (fun s' w' => I s' w' /\ cond s' = false).
Proof.
  intros Hbody fuel. induction fuel as [|fuel IH]; intros s w HI Hm; simpl.
  - destruct (cond s) eqn:Hc; [|now apply returns_ret].
    apply Hbody in HI; [|exact Hc].
    apply returns_elim in HI as (s' & w' & _ & _ & Hlt). lia.
  - destruct (cond s) eqn:Hc; [|now apply returns_ret].
    apply returns_bind.
    eapply returns_mono; [apply Hbody; eassumption|].
    intros s' w' [HI' Hlt]. apply IH; [exact HI'|lia].
Qed.

(** The bound is a device of the model only: any two bounds of at least the
    measure give the same run. *)
Lemma while_bound_irrelevant {S} (I : S -> World -> Prop) (measure : S -> nat)
    (cond : S -> bool) (body : S -> M S) :
  (forall s w, I s w -> cond s = true ->
     returns (body s) w (fun s' w' => I s' w' /\ measure s' < measure s)) ->
  forall fuel1 fuel2 s w, I s w -> measure s <= fuel1 -> measure s <= fuel2 ->
    while fuel1 cond body s w = while fuel2 cond body s w.
Proof.
  intros Hbody fuel1.
  induction fuel1 as [|fuel1 IH]; intros fuel2 s w HI H1 H2.
  - destruct fuel2 as [|fuel2]; [reflexivity|]. simpl.
    destruct (cond s) eqn:Hc; [|reflexivity].
    apply Hbody in HI; [|exact Hc].
    apply returns_elim in HI as (s' & w' & _ & _ & Hlt). lia.
  - simpl. destruct (cond s) eqn:Hc.
    + pose proof (Hbody s w HI Hc) as Hb.
      apply returns_elim in Hb as (s' & w' & Hrun & HI' & Hlt).
      destruct fuel2 as [|fuel2]; [lia|]. simpl. rewrite Hc.
      rewrite !(bind_run _ _ _ _ _ Hrun).
      apply IH; [exact HI'|lia|lia].
    + destruct fuel2; simpl; now rewrite Hc.
Qed.

(** ** The validator *)

Lemma mcq_accepts_run (data : pyval) (w : World) :
  mcq_accepts data w
  = (match data with
     | PDict _ => Ok (well_formed_mcq data)
     | _ => Raise AttributeError
     end, w).
Proof.
  destruct data as [| | | | |items|entries]; try reflexivity.
  unfold mcq_accepts, well_formed_mcq, bind, lift, ret, Py.get, Py.getitem.
  destruct (Py.lookup entries "question") as [[]|]; simpl; try reflexivity.
  destruct (Py.lookup entries "options") as [[]|]; simpl; try reflexivity.
  destruct (length items =? 4)%nat; simpl;
    destruct (Py.lookup entries "correct_index") as [[]|]; simpl;
    try reflexivity;
    destruct (Py.lookup entries "explanation") as [[]|]; reflexivity.
Qed.

Lemma well_formed_mcq_inv (v : pyval) :
  well_formed_mcq v = true ->
  exists entries q options c e,
    v = PDict entries
    /\ Py.lookup entries "question" = Some (PStr q)
    /\ Py.lookup entries "options" = Some (PList options)
    /\ length options = 4
    /\ Py.lookup entries "correct_index" = Some c
    /\ Py.isinstance_int c = true
    /\ Py.lookup entries "explanation" = Some (PStr e).
Proof.
  destruct v as [| | | | | |entries]; try discriminate. simpl.
  destruct (Py.lookup entries "question") as [[| | | |q| |]|] eqn:Hq;
    try discriminate.
  destruct (Py.lookup entries "options") as [[| | | | |options|]|] eqn:Ho;
    try discriminate.
  destruct (Py.lookup entries "correct_index") as [c|] eqn:Hc;
    try discriminate.
  destruct (Py.lookup entries "explanation") as [[| | | |e| |]|] eqn:He;
    try discriminate.
  intros [Hlen Hint]%andb_prop. apply Nat.eqb_eq in Hlen.
  exists entries, q, options, c, e. repeat split; auto.
Qed.

Lemma well_formed_mcq_key (v : pyval) :
  well_formed_mcq v = true ->
  exists q, Py.getitem v "question" = Ok (PStr q)
            /\ question_key v = Some (Str.lower (Str.strip q))
            /\ Py.truthy v = true.
Proof.
  intros (entries & q & options & c & e & -> & Hq & _)%well_formed_mcq_inv.
  exists q. simpl. rewrite Hq. repeat split.
  destruct entries; [discriminate|reflexivity].
Qed.

(** ** The wrappers of the text-generation client *)

(** Closes the goal of a path on which nothing more happens. *)
Ltac settle := repeat split; auto.

(** The single-question wrapper never raises; it hands back either the
    empty dict or a decoded object that passed the acceptance test. *)
Lemma generate_mcq_run (E : Env) (context : string) (asked : gset string)
    (w : World) :
  returns (_generate_mcq_from_context E context asked) w (fun v w' =>
    (v = PDict [] \/ (well_formed_mcq v = true /\ decoded E v))
    /\ mcq_effect E context asked w w').
Proof.
  unfold returns, _generate_mcq_from_context, mcq_effect, bind, try_except,
    enter, chat_completions_create, json_loads_py, lift, ret.
  destruct (groq_unusable E) eqn:Hu; simpl; [settle|].
  destruct (client E) as [backend|]; simpl; [|settle].
  destruct (backend (log_client_call McqCall w) (mcq_request context asked))
    as [content|]; simpl; [|settle].
  destruct (Re.search_object (Str.strip content)) as [matched|]; simpl;
    [|settle].
  destruct (json_loads E matched) as [data|] eqn:Hdata; simpl;
    [|settle].
  rewrite mcq_accepts_run.
  destruct data; try (simpl; now settle).
  destruct (well_formed_mcq (PDict entries)) eqn:Hwf; simpl;
    [|settle].
  settle. right. split; [exact Hwf|now exists matched].
Qed.

(** ** The retry loop *)

(** One iteration never raises: it consumes one attempt and either leaves
    the questions as they are or appends a well-formed question whose key
    was not yet in the set. *)
Lemma quiz_iteration_run (E : Env) (context : string) (st : QuizLoop)
    (w : World) :
  returns (quiz_iteration E context st) w (fun st' w' =>
    attempts st' = attempts st + 1
    /\ mcq_effect E context (asked_questions st) w w'
    /\ ((questions st' = questions st
         /\ asked_questions st' = asked_questions st)
        \/ exists mcq k,
             well_formed_mcq mcq = true /\ decoded E mcq
             /\ question_key mcq = Some k
             /\ (k ∉ asked_questions st)
             /\ questions st' = (questions st ++ [mcq])%list
             /\ asked_questions st' = (asked_questions st ∪ {[ k ]}))).
Proof.
  unfold quiz_iteration. apply returns_bind.
  eapply returns_mono; [apply generate_mcq_run|].
  intros v w' [[-> | [Hwf Hdec]] Heff]; simpl.
  - apply returns_ret. auto.
  - destruct (well_formed_mcq_key v Hwf) as (q & Hget & Hkey & Htruthy).
    rewrite Htruthy. simpl. unfold returns, bind, lift. rewrite Hget. simpl.
    destruct (bool_decide (Str.lower (Str.strip q) ∈ asked_questions st))
      eqn:Hseen; simpl.
    + split; [reflexivity|]. split; [exact Heff|]. now left.
    + apply bool_decide_eq_false in Hseen.
      split; [reflexivity|]. split; [exact Heff|]. right.
      exists v, (Str.lower (Str.strip q)). repeat split; auto.
Qed.

Lemma repeat_snoc {A} (x : A) (n : nat) :
  repeat x (n + 1) = (repeat x n ++ [x])%list.
Proof. rewrite Nat.add_1_r. simpl. apply repeat_cons. Qed.

Lemma quiz_continue_true (count max_attempts : nat) (st : QuizLoop) :
  quiz_continue count max_attempts st = true
  <-> length (questions st) < count /\ attempts st < max_attempts.
Proof.
  unfold quiz_continue. rewrite andb_true_iff, !Nat.ltb_lt. reflexivity.
Qed.

Lemma quiz_continue_false (count max_attempts : nat) (st : QuizLoop) :
  quiz_continue count max_attempts st = false
  <-> count <= length (questions st) \/ max_attempts <= attempts st.
Proof.
  unfold quiz_continue. rewrite andb_false_iff, !Nat.ltb_ge. reflexivity.
Qed.

(** Every iteration keeps the invariant and brings the attempts closer to
    the budget. *)
Lemma quiz_invariant_step (E : Env) (count : nat) (w0 : World)
    (context : string) (st : QuizLoop) (w : World) :
  quiz_invariant E count w0 st w ->
  quiz_continue count (count * 4) st = true ->
  returns (quiz_iteration E context st) w (fun st' w' =>
    quiz_invariant E count w0 st' w'
    /\ count * 4 - attempts st' < count * 4 - attempts st).
Proof.
  intros [Hshape Hkeys Hnodup Hquota Hfound Hbudget Hrag Hcalls Hreqs]
         [Hroom Hleft]%quiz_continue_true.
  eapply returns_mono; [apply quiz_iteration_run|].
  intros st' w' (Hatt & (Hrag' & Hcalls' & Hreqs') & Hq).
  assert (Hlen : length (llm_requests w') <= length (llm_requests w0) + attempts st').
  { destruct Hreqs' as [-> | [_ ->]]; [lia|].
    rewrite length_app. simpl. lia. }
  assert (Hlog : client_calls w'
                 = (client_calls w0 ++ repeat McqCall (attempts st'))%list).
  { rewrite Hcalls', Hcalls, Hatt, repeat_snoc. now rewrite <- app_assoc. }
  split; [|lia].
  destruct Hq as [[Hsame Hasked] | (mcq & k & Hwf & Hdec & Hk & Hfresh & Happ & Hadd)].
  - constructor; rewrite ?Hsame, ?Hasked; auto; try lia. congruence.
  - assert (Hnew : Some k ∉ question_key <$> questions st)
      by (now rewrite <- Hkeys).
    constructor; rewrite ?Happ, ?Hadd, ?fmap_app, ?length_app; simpl;
      auto; try lia; try congruence.
    + apply Forall_app. split; [exact Hshape|]. constructor; auto.
    + intros k'. rewrite elem_of_union, elem_of_app, elem_of_singleton, Hkeys.
      rewrite Hk, list_elem_of_singleton. split; intros [?|?]; auto.
      * right. congruence.
      * right. congruence.
    + rewrite Hk. apply NoDup_app. repeat split; auto.
      * intros x Hx ->%list_elem_of_singleton. contradiction.
      * apply NoDup_singleton.
Qed.

(** The retry loop of [generate_quiz] returns: its bound is never used up,
    no iteration raises; at its end the invariant holds and the loop test
    is false. *)
Lemma quiz_loop_run (E : Env) (context : string) (count : nat) (w : World) :
  returns (quiz_loop E context count) w (fun st w' =>
    quiz_invariant E count w st w'
    /\ quiz_continue count (count * 4) st = false).
Proof.
  unfold quiz_loop.
  apply while_returns with (measure := fun st => count * 4 - attempts st).
  - intros st w1 Hinv Hcond. now apply quiz_invariant_step.
  - constructor; simpl; auto; try lia.
    + intros k. rewrite elem_of_empty, elem_of_nil. reflexivity.
    + apply NoDup_nil_2.
    + now rewrite app_nil_r.
  - simpl. lia.
Qed.

(** The bound under which [generate_quiz] unrolls its loop is immaterial:
    any bound of at least the budget gives the same run. *)
Lemma quiz_loop_bound_irrelevant (E : Env) (context : string) (count : nat)
    (w : World) (fuel : nat) :
  count * 4 <= fuel ->
  while fuel (quiz_continue count (count * 4)) (quiz_iteration E context)
    (mkQuizLoop [] ∅ 0) w
  = quiz_loop E context count w.
Proof.
  intros Hfuel. unfold quiz_loop.
  apply while_bound_irrelevant
    with (I := quiz_invariant E count w)
         (measure := fun st => count * 4 - attempts st).
  - intros st w1 Hinv Hcond. now apply quiz_invariant_step.
  - constructor; simpl; auto; try lia.
    + intros k. rewrite elem_of_empty, elem_of_nil. reflexivity.
    + apply NoDup_nil_2.
    + now rewrite app_nil_r.
  - simpl. lia.
  - simpl. lia.
Qed.

(** ** The public entry points, path by path *)

Lemma get_chunks_run (E : Env) (subject_id unit_id top_k : Z) (w : World) :
  _get_chunks E subject_id unit_id top_k w
  = (Ok (retrieved E subject_id unit_id top_k w),
     log_retrieval (subject_id, unit_id, top_k) w).
Proof.
  unfold _get_chunks, try_except, rag_retrieve, retrieved.
  now destruct (retrieve_context E w subject_id unit_id top_k).
Qed.

Lemma generate_quiz_no_rag (E : Env) (subject_id unit_id : Z)
    (difficulty : string) (w : World) :
  RAG_AVAILABLE E = false ->
  generate_quiz E subject_id unit_id difficulty w
  = (Ok (_empty_quiz "Document service not available"), w).
Proof. unfold generate_quiz. now intros ->. Qed.

Lemma generate_quiz_short (E : Env) (subject_id unit_id : Z)
    (difficulty : string) (w : World) :
  RAG_AVAILABLE E = true ->
  String.length (quiz_context E subject_id unit_id w) < 200 ->
  generate_quiz E subject_id unit_id difficulty w
  = (Ok (_empty_quiz "Insufficient content"),
     log_retrieval (subject_id, unit_id, 40%Z) w).
Proof.
  unfold generate_quiz, quiz_context. intros -> Hshort%Nat.ltb_lt. simpl.
  unfold bind. rewrite get_chunks_run. now rewrite Hshort.
Qed.

Lemma generate_quiz_long (E : Env) (subject_id unit_id : Z)
    (difficulty : string) (w : World) :
  RAG_AVAILABLE E = true ->
  200 <= String.length (quiz_context E subject_id unit_id w) ->
  generate_quiz E subject_id unit_id difficulty w
  = bind (quiz_loop E (quiz_context E subject_id unit_id w)
            (dict_get DIFFICULTY_QUESTION_COUNT difficulty 8))
      (fun st =>
         if negb (Py.truthy (PList (questions st)))
         then ret (_empty_quiz "MCQ generation failed")
         else ret (quiz_success difficulty (questions st)))
      (log_retrieval (subject_id, unit_id, 40%Z) w).
Proof.
  unfold generate_quiz, quiz_context. intros -> Hlong%Nat.ltb_ge. simpl.
  unfold bind at 1. rewrite get_chunks_run. now rewrite Hlong.
Qed.

Lemma generate_quiz_run (E : Env) (subject_id unit_id : Z)
    (difficulty : string) (w : World) :
  returns (generate_quiz E subject_id unit_id difficulty) w
    (quiz_outcome E subject_id unit_id difficulty w).
Proof.
  unfold quiz_outcome.
  destruct (RAG_AVAILABLE E) eqn:Hrag.
  - destruct (Nat.lt_ge_cases
                (String.length (quiz_context E subject_id unit_id w)) 200)
      as [Hshort|Hlong].
    + eapply returns_intro; [now apply generate_quiz_short|].
      right. left. auto.
    + unfold returns. rewrite generate_quiz_long by assumption.
      pose proof (quiz_loop_run E (quiz_context E subject_id unit_id w)
                    (dict_get DIFFICULTY_QUESTION_COUNT difficulty 8)
                    (log_retrieval (subject_id, unit_id, 40%Z) w)) as Hloop.
      apply returns_elim in Hloop as (st & w' & Hrun & Hinv & Hstop).
      rewrite (bind_run _ _ _ _ _ Hrun).
      destruct (questions st) as [|q qs] eqn:Hqs; simpl;
        right; right; (split; [reflexivity|]); (split; [exact Hlong|]);
        exists st; rewrite Hqs; auto.
  - eapply returns_intro; [now apply generate_quiz_no_rag|]. left. auto.
Qed.

(** The table behind both target counts. *)
Lemma dict_get_table (difficulty : string) :
  dict_get DIFFICULTY_QUESTION_COUNT difficulty 8 = target_count difficulty.
Proof.
  unfold dict_get, DIFFICULTY_QUESTION_COUNT, target_count.
  destruct (String.eqb_spec difficulty "easy") as [->|Heasy];
    [reflexivity|].
  rewrite lookup_insert_ne by congruence.
  destruct (String.eqb_spec difficulty "medium") as [->|Hmedium];
    [reflexivity|].
  rewrite lookup_insert_ne by congruence.
  destruct (String.eqb_spec difficulty "hard") as [->|Hhard];
    [reflexivity|].
  rewrite lookup_insert_ne by congruence.
  now rewrite lookup_empty.
Qed.


(** ** The batch wrapper *)

Lemma collect_flashcards_run (E : Env) (cards acc : list pyval) (w : World) :
  Forall flashcard_shape acc ->
  match collect_flashcards E cards acc w with
  | (Ok out, w') => w' = w /\ Forall flashcard_shape out
  | (Raise _, w') => w' = w
  | (Diverge, _) => False
  end.
Proof.
  revert acc. induction cards as [|card rest IH]; intros acc Hacc; simpl.
  - auto.
  - unfold bind, lift.
    destruct (Py.get card "front" (PStr "")) as [f| |] eqn:Hf;
      [|reflexivity|destruct card; discriminate].
    destruct (Py.get card "back" (PStr "")) as [b| |] eqn:Hb;
      [|reflexivity|destruct card; discriminate].
    destruct (Str.nonempty (Str.strip (Py.str (repr_compound E) f))) eqn:Hfront;
      simpl; [|now apply IH].
    destruct (Str.nonempty (Str.strip (Py.str (repr_compound E) b))) eqn:Hback;
      simpl; [|now apply IH].
    apply IH. apply Forall_app. split; [exact Hacc|].
    constructor; [|constructor].
    eexists _, _. split; [reflexivity|].
    rewrite !strip_idempotent. auto.
Qed.

(** The batch wrapper never raises; every card it hands back has the four
    fields, trimmed and not empty. *)
Lemma generate_flashcards_wrapper_run (E : Env) (context : string)
    (count : nat) (w : World) :
  returns (_generate_flashcards_from_context E context count) w
    (fun cards w' =>
       Forall flashcard_shape cards /\ flashcard_effect E context count w w').
Proof.
  unfold returns, _generate_flashcards_from_context, flashcard_effect, bind,
    try_except, enter, chat_completions_create, json_loads_py, lift, ret.
  destruct (groq_unusable E) eqn:Hu; simpl; [settle|].
  assert (Hclient : exists backend, client E = Some backend).
  { unfold groq_unusable in Hu. apply orb_false_elim in Hu as [_ Hc].
    apply negb_false_iff, bool_decide_eq_true in Hc. exact Hc. }
  destruct Hclient as [backend ->].
  destruct (backend (log_client_call (FlashcardCall count) w)
              (flashcard_request context count)) as [content|]; simpl;
    [|settle].
  destruct (Re.search_array (Str.strip content)) as [matched|]; simpl;
    [|settle].
  destruct (json_loads E matched) as [data|]; simpl; [|settle].
  destruct (Py.iter data) as [cards| |] eqn:Hiter; simpl;
    [|settle|destruct data; discriminate].
  pose proof (collect_flashcards_run E cards []
                (log_request (flashcard_request context count)
                   (log_client_call (FlashcardCall count) w))
                (Forall_nil_2 _)) as Hcollect.
  destruct (collect_flashcards E cards [] _) as [[out|e|] w'];
    [destruct Hcollect as [-> Hout]|subst w'|contradiction];
    settle.
Qed.

Lemma generate_flashcards_no_rag (E : Env) (subject_id unit_id : Z)
    (difficulty : string) (w : World) :
  RAG_AVAILABLE E = false ->
  generate_flashcards E subject_id unit_id difficulty w
  = (Ok flashcards_failure, w).
Proof. unfold generate_flashcards. now intros ->. Qed.

Lemma generate_flashcards_short (E : Env) (subject_id unit_id : Z)
    (difficulty : string) (w : World) :
  RAG_AVAILABLE E = true ->
  String.length (flashcard_context E subject_id unit_id w) < 200 ->
  generate_flashcards E subject_id unit_id difficulty w
  = (Ok flashcards_failure, log_retrieval (subject_id, unit_id, 30%Z) w).
Proof.
  unfold generate_flashcards, flashcard_context.
  intros -> Hshort%Nat.ltb_lt. simpl.
  unfold bind. rewrite get_chunks_run. now rewrite Hshort.
Qed.

Lemma generate_flashcards_long (E : Env) (subject_id unit_id : Z)
    (difficulty : string) (w : World) :
  RAG_AVAILABLE E = true ->
  200 <= String.length (flashcard_context E subject_id unit_id w) ->
  generate_flashcards E subject_id unit_id difficulty w
  = bind (_generate_flashcards_from_context E
            (flashcard_context E subject_id unit_id w)
            (dict_get FLASHCARD_COUNT difficulty 8))
      (fun cards => ret (flashcards_success difficulty cards))
      (log_retrieval (subject_id, unit_id, 30%Z) w).
Proof.
  unfold generate_flashcards, flashcard_context.
  intros -> Hlong%Nat.ltb_ge. simpl.
  unfold bind at 1. rewrite get_chunks_run. now rewrite Hlong.
Qed.

(** One iteration is one step of the Deduplication Tracker on whatever the
    wrapper handed back. *)
Lemma quiz_iteration_dedup (E : Env) (context : string) (st : QuizLoop)
    (w : World) :
  returns (quiz_iteration E context st) w (fun st' w' =>
    exists v,
      _generate_mcq_from_context E context (asked_questions st) w = (Ok v, w')
      /\ st' = dedup_step st v).
Proof.
  pose proof (generate_mcq_run E context (asked_questions st) w) as Hrun.
  apply returns_elim in Hrun as (v & w1 & Hrun & Hv & _).
  unfold returns, quiz_iteration. rewrite (bind_run _ _ _ _ _ Hrun).
  destruct Hv as [-> | [Hwf _]]; simpl.
  - now exists (PDict []).
  - destruct (well_formed_mcq_key v Hwf) as (q & Hget & Hkey & Htruthy).
    rewrite Htruthy. simpl. unfold bind, lift. rewrite Hget. simpl.
    unfold dedup_step.
    destruct (bool_decide (Str.lower (Str.strip q) ∈ asked_questions st))
      eqn:Hseen; simpl; exists v; (split; [exact Hrun|]);
      now rewrite Hkey, Hseen.
Qed.

Lemma quiz_outcome_questions (E : Env) (subject_id unit_id : Z)
    (difficulty : string) (w : World) (envelope : pyval) (w' : World) :
  quiz_outcome E subject_id unit_id difficulty w envelope w' ->
  envelope_questions envelope = []
  \/ exists st w1,
       quiz_invariant E (dict_get DIFFICULTY_QUESTION_COUNT difficulty 8)
         w1 st w'
       /\ envelope_questions envelope = questions st.
Proof.
  intros [(_ & -> & _) | [(_ & _ & -> & _) | (_ & _ & st & _ & Hinv & _ & ->)]];
    [now left..|].
  destruct (questions st) eqn:Hqs; [now left|].
  right. exists st, (log_retrieval (subject_id, unit_id, 40%Z) w).
  split; [exact Hinv|]. now rewrite Hqs.
Qed.


Lemma generate_flashcards_run (E : Env) (subject_id unit_id : Z)
    (difficulty : string) (w : World) :
  returns (generate_flashcards E subject_id unit_id difficulty) w
    (flashcards_outcome E subject_id unit_id difficulty w).
Proof.
  unfold flashcards_outcome.
  destruct (RAG_AVAILABLE E) eqn:Hrag.
  - destruct (Nat.lt_ge_cases
                (String.length (flashcard_context E subject_id unit_id w)) 200)
      as [Hshort|Hlong].
    + eapply returns_intro; [now apply generate_flashcards_short|].
      right. left. auto.
    + unfold returns. rewrite generate_flashcards_long by assumption.
      pose proof (generate_flashcards_wrapper_run E
                    (flashcard_context E subject_id unit_id w)
                    (dict_get FLASHCARD_COUNT difficulty 8)
                    (log_retrieval (subject_id, unit_id, 30%Z) w)) as Hcall.
      apply returns_elim in Hcall as (cards & w' & Hrun & Hshape & Heff).
      rewrite (bind_run _ _ _ _ _ Hrun). simpl.
      right. right. split; [reflexivity|]. split; [exact Hlong|].
      exists cards. auto.
  - eapply returns_intro; [now apply generate_flashcards_no_rag|]. left. auto.
Qed.

Lemma quiz_outcome_envelope (E : Env) (subject_id unit_id : Z)
    (difficulty : string) (w : World) (envelope : pyval) (w' : World) :
  quiz_outcome E subject_id unit_id difficulty w envelope w' ->
  (exists q qs, envelope = quiz_success difficulty (q :: qs))
  \/ (exists message, envelope = _empty_quiz message /\ message ∈ quiz_messages).
Proof.
  unfold quiz_messages.
  intros [(_ & -> & _) | [(_ & _ & -> & _) | (_ & _ & st & _ & _ & _ & ->)]].
  - right. eexists. split; [reflexivity|]. set_solver.
  - right. eexists. split; [reflexivity|]. set_solver.
  - destruct (questions st) as [|q qs].
    + right. eexists. split; [reflexivity|]. set_solver.
    + left. now exists q, qs.
Qed.

(** ** The properties of the specification *)

(** C1 (as amended).  Every question in the result of [generate_quiz] is a
    decoded object, taken whole, whose [question] is a string, whose
    [options] is a list of exactly four elements (of any type), whose
    [correct_index] is an integer (of any value, a bool included) and whose
    [explanation] is a string; and the wrapper hands back either such an
    object or the empty dict, which the loop drops. *)
Theorem quiz_questions_well_formed (E : Env) (subject_id unit_id : Z)
    (difficulty : string) (w : World) :
  returns (generate_quiz E subject_id unit_id difficulty) w
    (fun envelope _ =>
       Forall (fun q => well_formed_mcq q = true /\ decoded E q)
         (envelope_questions envelope))
  /\ forall context asked w1,
       returns (_generate_mcq_from_context E context asked) w1
         (fun v _ => v = PDict [] \/ (well_formed_mcq v = true /\ decoded E v)).
Proof.
  split.
  - eapply returns_mono; [apply generate_quiz_run|].
    intros envelope w' [-> | (st & w1 & Hinv & ->)]%quiz_outcome_questions.
    + constructor.
    + exact (inv_shape _ _ _ _ _ Hinv).
  - intros context asked w1.
    eapply returns_mono; [apply generate_mcq_run|]. now intros v w' [Hv _].
Qed.

(** C1, the claim as stated fails: a reply with four integers as options
    and the index 7 passes the acceptance test, and [generate_quiz] returns
    it among its questions, although it is no QuestionArtifact. *)
Lemma quiz_accepts_question_outside_artifact_shape :
  fst (generate_quiz chatty_env 1 1 "easy" world0)
  = Ok (quiz_success "easy" [odd_mcq])
  /\ question_artifact_spec odd_mcq = false.
Proof. split; vm_compute; reflexivity. Qed.

(** C2 (as amended).  Neither entry point raises, whatever the
    collaborators do.  Every failure envelope of [generate_quiz] has
    [success] false, a non-empty [message] and no questions; the failure
    envelope of [generate_flashcards] has [success] false and no
    flashcards, and nothing else. *)
Theorem entry_points_always_return (E : Env) (subject_id unit_id : Z)
    (difficulty : string) (w : World) :
  returns (generate_quiz E subject_id unit_id difficulty) w
    (fun envelope _ =>
       field envelope "success" = Some (PBool true)
       \/ (field envelope "success" = Some (PBool false)
           /\ field envelope "questions" = Some (PList [])
           /\ exists message,
                field envelope "message" = Some (PStr message)
                /\ message ∈ quiz_messages))
  /\ returns (generate_flashcards E subject_id unit_id difficulty) w
       (fun envelope _ =>
          field envelope "success" = Some (PBool true)
          \/ envelope = PDict [ ("success", PBool false);
                                ("flashcards", PList []) ]).
Proof.
  split.
  - eapply returns_mono; [apply generate_quiz_run|].
    intros envelope w'
      [(q & qs & ->) | (message & -> & Hmsg)]%quiz_outcome_envelope.
    + now left.
    + right. repeat split. now exists message.
  - eapply returns_mono; [apply generate_flashcards_run|].
    intros envelope w'
      [(_ & -> & _) | [(_ & _ & -> & _) | (_ & _ & cards & _ & _ & _ & ->)]];
      auto.
Qed.

(** C2, the claim as stated fails: without the document service
    [generate_flashcards] returns a failure envelope that has no [message]
    field. *)
Lemma flashcards_failure_without_message :
  exists envelope,
    fst (generate_flashcards no_rag_env 1 1 "easy" world0) = Ok envelope
    /\ field envelope "success" = Some (PBool false)
    /\ field envelope "message" = None.
Proof. exists flashcards_failure. repeat split. Qed.

(** C3.  The target count of both entry points is the value of the fixed
    table at the difficulty: 5 for easy, 8 for medium, 10 for hard and 8 for
    any other text.  Once the context is long enough, [generate_quiz] runs
    its retry loop with exactly that quota and four times that budget: it
    ends on that many questions or after that many attempts times four, and
    not before; [generate_flashcards] asks the batch wrapper for exactly
    that many cards, and that number stands in the request sent.  Without
    the document service or with a short context neither function invokes
    the client. *)
Theorem target_count_by_difficulty (E : Env) (subject_id unit_id : Z)
    (difficulty : string) (w : World) :
  dict_get DIFFICULTY_QUESTION_COUNT difficulty 8 = target_count difficulty
  /\ dict_get FLASHCARD_COUNT difficulty 8 = target_count difficulty
  /\ returns (generate_quiz E subject_id unit_id difficulty) w
       (fun envelope w' =>
          let context := quiz_context E subject_id unit_id w in
          let w1 := log_retrieval (subject_id, unit_id, 40%Z) w in
          if RAG_AVAILABLE E && (200 <=? String.length context)%nat then
            exists st,
              quiz_loop E context (target_count difficulty) w1 = (Ok st, w')
              /\ envelope_questions envelope = questions st
              /\ client_calls w'
                 = (client_calls w ++ repeat McqCall (attempts st))%list
              /\ length (questions st) <= target_count difficulty
              /\ attempts st <= target_count difficulty * 4
              /\ (length (questions st) = target_count difficulty
                  \/ attempts st = target_count difficulty * 4)
          else
            envelope_questions envelope = []
            /\ client_calls w' = client_calls w)
  /\ returns (generate_flashcards E subject_id unit_id difficulty) w
       (fun envelope w' =>
          let context := flashcard_context E subject_id unit_id w in
          let w1 := log_retrieval (subject_id, unit_id, 30%Z) w in
          if RAG_AVAILABLE E && (200 <=? String.length context)%nat then
            exists cards,
              _generate_flashcards_from_context E context
                (target_count difficulty) w1 = (Ok cards, w')
              /\ envelope = flashcards_success difficulty cards
              /\ client_calls w'
                 = (client_calls w
                    ++ [FlashcardCall (target_count difficulty)])%list
              /\ llm_requests w'
                 = if groq_unusable E then llm_requests w
                   else (llm_requests w
                         ++ [flashcard_request context
                               (target_count difficulty)])%list
          else
            envelope = flashcards_failure
            /\ client_calls w' = client_calls w).
Proof.
  split; [apply dict_get_table|]. split; [apply dict_get_table|]. split.
  - eapply returns_mono; [apply generate_quiz_run|].
    unfold quiz_outcome. rewrite dict_get_table.
    intros envelope w'
      [(Hoff & -> & ->)
      | [(Hrag & Hshort & -> & ->)
        | (Hrag & Hlong & st & Hrun & Hinv & Hstop & ->)]]; cbv zeta.
    + rewrite Hoff. simpl. now split.
    + apply Nat.leb_gt in Hshort. rewrite Hrag, Hshort. simpl. now split.
    + apply Nat.leb_le in Hlong. rewrite Hrag, Hlong. simpl.
      apply quiz_continue_false in Hstop. destruct Hinv.
      exists st. split; [exact Hrun|].
      split; [now destruct (questions st)|].
      split; [assumption|]. split; [assumption|]. split; [assumption|].
      lia.
  - eapply returns_mono; [apply generate_flashcards_run|].
    unfold flashcards_outcome, FLASHCARD_COUNT. rewrite dict_get_table.
    intros envelope w'
      [(Hoff & -> & ->)
      | [(Hrag & Hshort & -> & ->)
        | (Hrag & Hlong & cards & Hrun & _ & (_ & Hcalls & Hreqs) & ->)]];
      cbv zeta.
    + rewrite Hoff. simpl. now split.
    + apply Nat.leb_gt in Hshort. rewrite Hrag, Hshort. simpl. now split.
    + apply Nat.leb_le in Hlong. rewrite Hrag, Hlong. simpl.
      exists cards. split; [exact Hrun|]. split; [reflexivity|].
      split; [exact Hcalls|exact Hreqs].
Qed.

(** C4.  When the document service is there and the context has at least
    200 characters, the attempt budget of [generate_quiz] is four times the
    target count: the loop ends with at most that many attempts, each
    attempt is one invocation of the text-generation client, and at most
    one request reaches the LLM backend per attempt. *)
Theorem quiz_attempt_budget (E : Env) (subject_id unit_id : Z)
    (difficulty : string) (w : World) :
  RAG_AVAILABLE E = true ->
  200 <= String.length (quiz_context E subject_id unit_id w) ->
  returns (generate_quiz E subject_id unit_id difficulty) w
    (fun _ w' =>
       exists st,
         quiz_loop E (quiz_context E subject_id unit_id w)
           (dict_get DIFFICULTY_QUESTION_COUNT difficulty 8)
           (log_retrieval (subject_id, unit_id, 40%Z) w) = (Ok st, w')
         /\ attempts st <= dict_get DIFFICULTY_QUESTION_COUNT difficulty 8 * 4
         /\ client_calls w'
            = (client_calls w ++ repeat McqCall (attempts st))%list
         /\ length (llm_requests w') <= length (llm_requests w) + attempts st).
Proof.
  intros Hrag Hlong.
  eapply returns_mono; [apply generate_quiz_run|].
  intros envelope w'
    [(Hoff & _) | [(_ & Hshort & _) | (_ & _ & st & Hrun & Hinv & _)]];
    [congruence|lia|].
  exists st. destruct Hinv. auto.
Qed.

(** C4 at work: an easy quiz over the repeating backend stays within its
    20 attempts. *)
Lemma quiz_attempt_budget_witness :
  RAG_AVAILABLE chatty_env = true
  /\ 200 <= String.length (quiz_context chatty_env 1 1 world0)
  /\ returns (generate_quiz chatty_env 1 1 "easy") world0
       (fun _ w' => length (client_calls w') <= 20
                    /\ length (llm_requests w') <= 20).
Proof.
  assert (Hrag : RAG_AVAILABLE chatty_env = true) by reflexivity.
  assert (Hlong : 200 <= String.length (quiz_context chatty_env 1 1 world0))
    by (vm_compute; lia).
  split; [exact Hrag|]. split; [exact Hlong|].
  eapply returns_mono;
    [exact (quiz_attempt_budget chatty_env 1 1 "easy" world0 Hrag Hlong)|].
  intros _ w' (st & _ & Hbudget & Hcalls & Hreqs).
  change (dict_get DIFFICULTY_QUESTION_COUNT "easy" 8) with 5 in Hbudget.
  rewrite Hcalls, length_app, repeat_length. simpl in *. lia.
Defined.

(** C5.  No two questions in the result of [generate_quiz] have the same
    text after trimming and lower-casing; and an iteration of the loop
    keeps or drops the candidate by that key alone: it is one step of the
    Deduplication Tracker on what the wrapper handed back. *)
Theorem quiz_questions_unique (E : Env) (subject_id unit_id : Z)
    (difficulty : string) (w : World) :
  returns (generate_quiz E subject_id unit_id difficulty) w
    (fun envelope _ =>
       NoDup (question_key <$> envelope_questions envelope)
       /\ Forall (fun q => is_Some (question_key q))
            (envelope_questions envelope))
  /\ forall context st w1,
       returns (quiz_iteration E context st) w1 (fun st' w' =>
         exists v,
           _generate_mcq_from_context E context (asked_questions st) w1
           = (Ok v, w')
           /\ st' = dedup_step st v).
Proof.
  split; [|intros; apply quiz_iteration_dedup].
  eapply returns_mono; [apply generate_quiz_run|].
  intros envelope w' [-> | (st & w1 & Hinv & ->)]%quiz_outcome_questions.
  - split; constructor.
  - split; [exact (inv_nodup _ _ _ _ _ Hinv)|].
    eapply Forall_impl; [exact (inv_shape _ _ _ _ _ Hinv)|].
    intros q [Hwf _]. apply well_formed_mcq_key in Hwf as (t & _ & -> & _).
    now eexists.
Qed.

(** C6.  With the document service there, a context of fewer than 200
    characters makes [generate_quiz] return the failure envelope with the
    message "Insufficient content" and [generate_flashcards] return its
    failure envelope with no flashcards; neither invokes the
    text-generation client nor sends a request. *)
Theorem insufficient_content_short_circuit (E : Env) (subject_id unit_id : Z)
    (difficulty : string) (w : World) :
  RAG_AVAILABLE E = true ->
  (String.length (quiz_context E subject_id unit_id w) < 200 ->
   returns (generate_quiz E subject_id unit_id difficulty) w
     (fun envelope w' =>
        envelope = PDict [ ("success", PBool false);
                           ("message", PStr "Insufficient content");
                           ("questions", PList []) ]
        /\ client_calls w' = client_calls w
        /\ llm_requests w' = llm_requests w))
  /\ (String.length (flashcard_context E subject_id unit_id w) < 200 ->
      returns (generate_flashcards E subject_id unit_id difficulty) w
        (fun envelope w' =>
           envelope = PDict [ ("success", PBool false);
                              ("flashcards", PList []) ]
           /\ client_calls w' = client_calls w
           /\ llm_requests w' = llm_requests w)).
Proof.
  intros Hrag. split; intros Hshort.
  - eapply returns_intro; [now apply generate_quiz_short|]. auto.
  - eapply returns_intro; [now apply generate_flashcards_short|]. auto.
Qed.

(** C6 at work: fifty characters of context. *)
Lemma insufficient_content_witness :
  RAG_AVAILABLE thin_env = true
  /\ String.length (quiz_context thin_env 1 1 world0) < 200
  /\ String.length (flashcard_context thin_env 1 1 world0) < 200
  /\ returns (generate_quiz thin_env 1 1 "hard") world0
       (fun envelope w' =>
          envelope = PDict [ ("success", PBool false);
                             ("message", PStr "Insufficient content");
                             ("questions", PList []) ]
          /\ client_calls w' = client_calls world0
          /\ llm_requests w' = llm_requests world0)
  /\ returns (generate_flashcards thin_env 1 1 "hard") world0
       (fun envelope w' =>
          envelope = PDict [ ("success", PBool false);
                             ("flashcards", PList []) ]
          /\ client_calls w' = client_calls world0
          /\ llm_requests w' = llm_requests world0).
Proof.
  assert (Hrag : RAG_AVAILABLE thin_env = true) by reflexivity.
  assert (Hquiz : String.length (quiz_context thin_env 1 1 world0) < 200)
    by (vm_compute; lia).
  assert (Hcards : String.length (flashcard_context thin_env 1 1 world0) < 200)
    by (vm_compute; lia).
  pose proof (insufficient_content_short_circuit thin_env 1 1 "hard" world0
                Hrag) as [Hq Hf].
  split; [exact Hrag|]. split; [exact Hquiz|]. split; [exact Hcards|].
  split; [exact (Hq Hquiz)|exact (Hf Hcards)].
Defined.



(** C8.  With the document service there and a context of at least 200
    characters, whenever the retry loop ends with at least one question,
    [generate_quiz] returns the success envelope with exactly the questions
    collected, be they fewer than the target count. *)
Theorem partial_results_are_success (E : Env) (subject_id unit_id : Z)
    (difficulty : string) (w : World) (st : QuizLoop) (w' : World) :
  RAG_AVAILABLE E = true ->
  200 <= String.length (quiz_context E subject_id unit_id w) ->
  quiz_loop E (quiz_context E subject_id unit_id w)
    (dict_get DIFFICULTY_QUESTION_COUNT difficulty 8)
    (log_retrieval (subject_id, unit_id, 40%Z) w) = (Ok st, w') ->
  questions st <> [] ->
  generate_quiz E subject_id unit_id difficulty w
  = (Ok (PDict [ ("success", PBool true);
                 ("difficulty", PStr difficulty);
                 ("questions", PList (questions st)) ]), w')
  /\ 0 < length (questions st) <= target_count difficulty.
Proof.
  intros Hrag Hlong Hrun Hsome.
  rewrite generate_quiz_long by assumption.
  rewrite (bind_run _ _ _ _ _ Hrun).
  pose proof (quiz_loop_run E (quiz_context E subject_id unit_id w)
                (dict_get DIFFICULTY_QUESTION_COUNT difficulty 8)
                (log_retrieval (subject_id, unit_id, 40%Z) w)) as Hloop.
  unfold returns in Hloop. rewrite Hrun in Hloop. destruct Hloop as [Hinv _].
  destruct Hinv. rewrite dict_get_table in *.
  destruct (questions st) as [|q qs] eqn:Hqs; [contradiction|].
  split; [reflexivity|]. simpl in *. lia.
Qed.

(** C8 at work: the repeating backend; one question out of the 8 of a
    medium quiz, and a success. *)
Lemma partial_results_witness :
  RAG_AVAILABLE chatty_env = true
  /\ 200 <= String.length (quiz_context chatty_env 1 1 world0)
  /\ fst chatty_loop_end = Ok (mkQuizLoop [odd_mcq] {[ "which one?" ]} 32)
  /\ fst (generate_quiz chatty_env 1 1 "medium" world0)
     = Ok (quiz_success "medium" [odd_mcq])
  /\ 0 < 1 <= 8.
Proof.
  assert (Hrag : RAG_AVAILABLE chatty_env = true) by reflexivity.
  assert (Hlong : 200 <= String.length (quiz_context chatty_env 1 1 world0))
    by (vm_compute; lia).
  assert (Hend : chatty_loop_end
                 = (Ok (mkQuizLoop [odd_mcq] {[ "which one?" ]} 32),
                    snd chatty_loop_end))
    by (vm_compute; reflexivity).
  assert (Hsome : questions (mkQuizLoop [odd_mcq] {[ "which one?" ]} 32) <> [])
    by discriminate.
  pose proof (partial_results_are_success chatty_env 1 1 "medium" world0
                (mkQuizLoop [odd_mcq] {[ "which one?" ]} 32)
                (snd chatty_loop_end) Hrag Hlong Hend Hsome) as [Hrun Hcount].
  split; [exact Hrag|]. split; [exact Hlong|].
  split; [now rewrite Hend|]. split; [now rewrite Hrun|exact Hcount].
Defined.

(** C9.  With the document service there and a context of at least 200
    characters, [generate_flashcards] invokes the batch wrapper exactly
    once (which sends exactly one request when the client is usable, none
    otherwise) and returns the success envelope with the cards of that one
    call, however few; every card has the fields [question], [answer],
    [front] and [back], the aliases equal to the canonical ones, each text
    trimmed and not empty. *)
Theorem flashcards_single_batch (E : Env) (subject_id unit_id : Z)
    (difficulty : string) (w : World) :
  RAG_AVAILABLE E = true ->
  200 <= String.length (flashcard_context E subject_id unit_id w) ->
  returns (generate_flashcards E subject_id unit_id difficulty) w
    (fun envelope w' =>
       exists cards,
         envelope = PDict [ ("success", PBool true);
                            ("difficulty", PStr difficulty);
                            ("flashcards", PList cards) ]
         /\ _generate_flashcards_from_context E
              (flashcard_context E subject_id unit_id w)
              (target_count difficulty)
              (log_retrieval (subject_id, unit_id, 30%Z) w) = (Ok cards, w')
         /\ client_calls w'
            = (client_calls w ++ [FlashcardCall (target_count difficulty)])%list
         /\ llm_requests w'
            = (if groq_unusable E then llm_requests w
               else (llm_requests w
                     ++ [flashcard_request
                           (flashcard_context E subject_id unit_id w)
                           (target_count difficulty)])%list)
         /\ Forall (fun card =>
              exists front back,
                card = PDict [ ("question", PStr front);
                               ("answer", PStr back);
                               ("front", PStr front);
                               ("back", PStr back) ]
                /\ Str.strip front = front /\ Str.strip back = back
                /\ Str.nonempty (Str.strip front) = true
                /\ Str.nonempty (Str.strip back) = true) cards).
Proof.
  intros Hrag Hlong.
  eapply returns_mono; [apply generate_flashcards_run|].
  unfold flashcards_outcome, FLASHCARD_COUNT. rewrite dict_get_table.
  intros envelope w'
    [(Hoff & _) | [(_ & Hshort & _) |
                   (_ & _ & cards & Hrun & Hshape & Heff & ->)]];
    [congruence|lia|].
  exists cards. destruct Heff as (_ & Hcalls & Hreqs).
  repeat split; auto.
Qed.

(** C9 at work: of the two cards of the reply the one with both texts is
    kept, after one invocation and one request. *)
Lemma flashcards_single_batch_witness :
  RAG_AVAILABLE chatty_env = true
  /\ 200 <= String.length (flashcard_context chatty_env 1 1 world0)
  /\ returns (generate_flashcards chatty_env 1 1 "easy") world0
       (fun envelope w' =>
          envelope
          = flashcards_success "easy"
              [flashcard "What is a diode?" "A one-way valve"]
          /\ client_calls w' = [FlashcardCall 5]
          /\ length (llm_requests w') = 1).
Proof.
  assert (Hrag : RAG_AVAILABLE chatty_env = true) by reflexivity.
  assert (Hlong : 200 <= String.length (flashcard_context chatty_env 1 1 world0))
    by (vm_compute; lia).
  split; [exact Hrag|]. split; [exact Hlong|].
  eapply returns_mono;
    [exact (flashcards_single_batch chatty_env 1 1 "easy" world0 Hrag Hlong)|].
  intros envelope w' (cards & -> & Hrun & Hcalls & Hreqs & _).
  vm_compute in Hrun. injection Hrun as <- <-.
  repeat split.
Defined.

(** C10.  Without the document service, [generate_quiz] returns the
    failure envelope with the message "Document service not available" and
    [generate_flashcards] its failure envelope with no flashcards; the
    world is left as it was: no retrieval, no invocation of the
    text-generation client, no request. *)
Theorem rag_unavailable_short_circuit (E : Env) (subject_id unit_id : Z)
    (difficulty : string) (w : World) :
  RAG_AVAILABLE E = false ->
  generate_quiz E subject_id unit_id difficulty w
  = (Ok (PDict [ ("success", PBool false);
                 ("message", PStr "Document service not available");
                 ("questions", PList []) ]), w)
  /\ generate_flashcards E subject_id unit_id difficulty w
     = (Ok (PDict [ ("success", PBool false); ("flashcards", PList []) ]), w).
Proof.
  intros Hoff. split.
  - now apply generate_quiz_no_rag.
  - now apply generate_flashcards_no_rag.
Qed.

(** C10 at work. *)
Lemma rag_unavailable_witness :
  RAG_AVAILABLE no_rag_env = false
  /\ generate_quiz no_rag_env 7 3 "hard" world0
     = (Ok (_empty_quiz "Document service not available"), world0)
  /\ generate_flashcards no_rag_env 7 3 "hard" world0
     = (Ok flashcards_failure, world0).
Proof.
  assert (Hoff : RAG_AVAILABLE no_rag_env = false) by reflexivity.
  split; [exact Hoff|].
  exact (rag_unavailable_short_circuit no_rag_env 7 3 "hard" world0 Hoff).
Defined.

(** ** Scenarios of the specification *)

(** Scenario A: 5000 characters of context and a question never seen
    before on every attempt; a medium quiz is complete after 8 attempts. *)
Example scenario_fresh_questions :
  returns (generate_quiz fresh_env 1 1 "medium") world0 (fun envelope w' =>
    field envelope "success" = Some (PBool true)
    /\ envelope_questions envelope = map fresh_mcq (seq 0 8)
    /\ length (client_calls w') = 8
    /\ length (llm_requests w') = 8).
Proof. vm_compute. repeat split. Qed.

(** Scenario B: the same question on every attempt; after the 32 attempts
    of a medium quiz one question is kept and the call is a success. *)
Example scenario_identical_question :
  returns (generate_quiz chatty_env 1 1 "medium") world0 (fun envelope w' =>
    envelope = quiz_success "medium" [odd_mcq]
    /\ length (client_calls w') = 32
    /\ length (llm_requests w') = 32).
Proof. vm_compute. repeat split. Qed.

(** Scenario C: fifty characters of context; no flashcards, no client
    invocation. *)
Example scenario_short_context :
  generate_flashcards thin_env 1 1 "medium" world0
  = (Ok flashcards_failure, mkWorld [(1, 1, 30)%Z] [] []).
Proof. reflexivity. Qed.

(** Without a usable client the flashcard call still succeeds, with no
    cards and no request. *)
Example flashcards_success_when_offline :
  generate_flashcards offline_env 1 1 "medium" world0
  = (Ok (flashcards_success "medium" []),
     mkWorld [(1, 1, 30)%Z] [FlashcardCall 8] []).
Proof. vm_compute. reflexivity. Qed.

(** A difficulty outside the table counts as 8. *)
Example unrecognized_difficulty :
  dict_get DIFFICULTY_QUESTION_COUNT "expert" 8 = 8
  /\ dict_get FLASHCARD_COUNT "" 8 = 8.
Proof. split; reflexivity. Qed.

(** The searches of the parser on noisy replies. *)
Example search_object_in_prose :
  Re.search_object "Answer: {a} and {b}" = Some "{a}"
  /\ Re.search_object "no braces" = None
  /\ Re.search_object "} {" = None.
Proof. repeat split. Qed.

Example search_array_in_prose :
  Re.search_array "xx [ [  {a} ] {b}  ] ]" = Some "[  {a} ]"
  /\ Re.search_array "[1, 2] [{b} , {c}] tail" = Some "[{b} , {c}]"
  /\ Re.search_array "[{a}" = None.
Proof. repeat split. Qed.

(** ** The searches of the parser *)

Lemma has_char_app (c : ascii) (a b : string) :
  has_char c (a +:+ b) = has_char c a || has_char c b.
Proof.
  induction a as [|c' a IH]; simpl; [reflexivity|].
  now rewrite IH, orb_assoc.
Qed.

Lemma upto_close_none (s : string) :
  Re.upto_close s = None <-> has_char "}" s = false.
Proof.
  induction s as [|c r IH]; simpl; [easy|].
  destruct (Ascii.eqb c "}"); simpl; [easy|].
  destruct (Re.upto_close r); simpl; [|tauto].
  split; [discriminate|]. intros H. now apply IH in H.
Qed.

Lemma upto_close_some (s m : string) :
  Re.upto_close s = Some m
  <-> exists body post,
        s = body +:+ String "}" post /\ m = body +:+ "}"
        /\ has_char "}" body = false.
Proof.
  revert m. induction s as [|c r IH]; intros m; simpl.
  - split; [discriminate|]. intros (body & post & Hs & _).
    destruct body; discriminate.
  - destruct (Ascii.eqb_spec c "}") as [->|Hc].
    + split.
      * intros [= <-]. now exists "", r.
      * intros (body & post & Hs & -> & Hbody).
        destruct body as [|c' body]; [reflexivity|].
        simpl in Hs, Hbody. injection Hs as <- _.
        now rewrite Ascii.eqb_refl in Hbody.
    + split.
      * destruct (Re.upto_close r) as [m'|] eqn:Hr; [|discriminate].
        intros [= <-].
        destruct (proj1 (IH m') eq_refl) as (body & post & -> & -> & Hbody).
        exists (String c body), post. simpl.
        apply Ascii.eqb_neq in Hc. now rewrite Hc.
      * intros (body & post & Hs & -> & Hbody).
        destruct body as [|c' body]; simpl in Hs.
        -- injection Hs as -> _. contradiction.
        -- injection Hs as <- ->. simpl in Hbody.
           apply orb_false_elim in Hbody as [_ Hbody].
           assert (Hr : Re.upto_close (body +:+ String "}" post)
                        = Some (body +:+ "}"))
             by (apply IH; now exists body, post).
           now rewrite Hr.
Qed.

(** X1.  The text that the single-question parser hands to the JSON decoder
    is the part of the reply from its first opening brace through the
    first closing brace after it: no opening brace comes before it, and its
    only closing brace is its last character.  (A reply whose object holds
    a nested object is therefore cut at the inner closing brace.) *)
Theorem search_object_first_braces (s m : string) :
  Re.search_object s = Some m
  <-> exists pre body post,
        s = pre +:+ String "{" (body +:+ String "}" post)
        /\ m = String "{" (body +:+ "}")
        /\ has_char "{" pre = false
        /\ has_char "}" body = false.
Proof.
  revert m. induction s as [|c r IH]; intros m; simpl.
  - split; [discriminate|]. intros (pre & body & post & Hs & _).
    destruct pre; discriminate.
  - destruct (Ascii.eqb_spec c "{") as [->|Hc].
    + destruct (Re.upto_close r) as [m'|] eqn:Hr.
      * apply upto_close_some in Hr as (body & post & -> & -> & Hbody).
        split.
        -- intros [= <-]. now exists "", body, post.
        -- intros (pre & body' & post' & Hs & -> & Hpre & Hbody').
           destruct pre as [|c' pre]; simpl in Hs.
           ++ injection Hs as Hs.
              assert (Hsame : Re.upto_close (body +:+ String "}" post)
                              = Some (body' +:+ "}"))
                by (rewrite Hs; apply upto_close_some; now exists body', post').
              assert (Hmine : Re.upto_close (body +:+ String "}" post)
                              = Some (body +:+ "}"))
                by (apply upto_close_some; now exists body, post).
              congruence.
           ++ injection Hs as <- _. simpl in Hpre.
              rewrite ?Ascii.eqb_refl in Hpre. discriminate.
      * apply upto_close_none in Hr. split.
        -- intros Hm. apply IH in Hm as (pre & body & post & -> & _).
           rewrite has_char_app in Hr. simpl in Hr.
           rewrite has_char_app in Hr. simpl in Hr.
           rewrite !orb_true_r in Hr. discriminate.
        -- intros (pre & body & post & Hs & _ & Hpre & _).
           destruct pre as [|c' pre]; simpl in Hs.
           ++ injection Hs as ->. rewrite has_char_app in Hr. simpl in Hr.
              rewrite !orb_true_r in Hr. discriminate.
           ++ injection Hs as <- _. simpl in Hpre.
              rewrite ?Ascii.eqb_refl in Hpre. discriminate.
    + rewrite IH. split.
      * intros (pre & body & post & -> & -> & Hpre & Hbody).
        exists (String c pre), body, post. simpl.
        apply Ascii.eqb_neq in Hc. now rewrite Hc.
      * intros (pre & body & post & Hs & -> & Hpre & Hbody).
        destruct pre as [|c' pre]; simpl in Hs.
        -- injection Hs as -> _. contradiction.
        -- injection Hs as <- ->. simpl in Hpre.
           apply orb_false_elim in Hpre as [_ Hpre].
           now exists pre, body, post.
Qed.

Lemma close_tail_some (s t : string) :
  Re.close_tail s = Some t ->
  exists ws post,
    s = ws +:+ String "]" post /\ t = ws +:+ "]" /\ all_space ws = true.
Proof.
  revert t. induction s as [|c r IH]; intros t; simpl; [discriminate|].
  destruct (Ascii.eqb_spec c "]") as [->|Hc].
  - intros [= <-]. now exists "", r.
  - destruct (Str.isspace c) eqn:Hsp; [|discriminate].
    destruct (Re.close_tail r) as [t'|]; [|discriminate].
    intros [= <-].
    destruct (IH t' eq_refl) as (ws & post & -> & -> & Hws).
    exists (String c ws), post. simpl. now rewrite Hsp.
Qed.

Lemma space_differs (c d : ascii) :
  Str.isspace c = true -> Str.isspace d = false -> Ascii.eqb c d = false.
Proof.
  intros Hc Hd. destruct (Ascii.eqb_spec c d) as [->|]; congruence.
Qed.

Lemma close_tail_complete (ws post : string) :
  all_space ws = true ->
  Re.close_tail (ws +:+ String "]" post) = Some (ws +:+ "]").
Proof.
  induction ws as [|c ws IH]; simpl; [reflexivity|].
  intros [Hc Hws]%andb_prop. rewrite (IH Hws), Hc.
  now rewrite (space_differs c "]" Hc eq_refl).
Qed.

Lemma lazy_body_some (s m : string) :
  Re.lazy_body s = Some m ->
  exists body ws post,
    s = body +:+ String "}" (ws +:+ String "]" post)
    /\ m = body +:+ String "}" (ws +:+ "]")
    /\ all_space ws = true.
Proof.
  revert m. induction s as [|c r IH]; intros m; simpl; [discriminate|].
  assert (Hrec : option_map (String c) (Re.lazy_body r) = Some m ->
            exists body ws post,
              String c r = body +:+ String "}" (ws +:+ String "]" post)
              /\ m = body +:+ String "}" (ws +:+ "]")
              /\ all_space ws = true).
  { destruct (Re.lazy_body r) as [m'|]; [|discriminate]. intros [= <-].
    destruct (IH m' eq_refl) as (body & ws & post & -> & -> & Hws).
    now exists (String c body), ws, post. }
  destruct (Ascii.eqb_spec c "}") as [->|Hc]; [|exact Hrec].
  destruct (Re.close_tail r) as [t|] eqn:Ht; [|exact Hrec].
  intros [= <-].
  apply close_tail_some in Ht as (ws & post & -> & -> & Hws).
  now exists "", ws, post.
Qed.

Lemma lazy_body_complete (body ws post : string) :
  all_space ws = true ->
  is_Some (Re.lazy_body (body +:+ String "}" (ws +:+ String "]" post))).
Proof.
  intros Hws. induction body as [|c body IH]; simpl.
  - now rewrite (close_tail_complete ws post Hws).
  - destruct IH as [m Hm]. rewrite Hm. simpl.
    destruct (Ascii.eqb c "}"); [|now eexists].
    destruct (Re.close_tail _); now eexists.
Qed.

Lemma open_body_some (s m : string) :
  Re.open_body s = Some m ->
  exists ws1 body ws2 post,
    s = ws1 +:+ String "{" (body +:+ String "}" (ws2 +:+ String "]" post))
    /\ m = ws1 +:+ String "{" (body +:+ String "}" (ws2 +:+ "]"))
    /\ all_space ws1 = true /\ all_space ws2 = true.
Proof.
  revert m. induction s as [|c r IH]; intros m; simpl; [discriminate|].
  destruct (Ascii.eqb_spec c "{") as [->|Hc].
  - destruct (Re.lazy_body r) as [m'|] eqn:Hr; [|discriminate].
    intros [= <-].
    apply lazy_body_some in Hr as (body & ws & post & -> & -> & Hws).
    now exists "", body, ws, post.
  - destruct (Str.isspace c) eqn:Hsp; [|discriminate].
    destruct (Re.open_body r) as [m'|]; [|discriminate].
    intros [= <-].
    destruct (IH m' eq_refl) as (ws1 & body & ws2 & post & -> & -> & H1 & H2).
    exists (String c ws1), body, ws2, post. simpl. now rewrite Hsp.
Qed.

Lemma open_body_complete (ws1 body ws2 post : string) :
  all_space ws1 = true -> all_space ws2 = true ->
  is_Some (Re.open_body
             (ws1 +:+ String "{" (body +:+ String "}" (ws2 +:+ String "]" post)))).
Proof.
  intros H1 H2. induction ws1 as [|c ws1 IH]; simpl.
  - destruct (lazy_body_complete body ws2 post H2) as [m ->]. now eexists.
  - simpl in H1. apply andb_prop in H1 as [Hc H1].
    destruct (IH H1) as [m ->]. rewrite Hc. simpl.
    rewrite (space_differs c "{" Hc eq_refl). now eexists.
Qed.

Lemma search_array_some (s m : string) :
  Re.search_array s = Some m ->
  exists pre ws1 body ws2 post,
    s = pre +:+ String "["
          (ws1 +:+ String "{" (body +:+ String "}" (ws2 +:+ String "]" post)))
    /\ m = String "[" (ws1 +:+ String "{" (body +:+ String "}" (ws2 +:+ "]")))
    /\ all_space ws1 = true /\ all_space ws2 = true.
Proof.
  revert m. induction s as [|c r IH]; intros m; simpl; [discriminate|].
  assert (Hrec : Re.search_array r = Some m ->
            exists pre ws1 body ws2 post,
              String c r
              = pre +:+ String "["
                  (ws1 +:+ String "{"
                     (body +:+ String "}" (ws2 +:+ String "]" post)))
              /\ m = String "["
                       (ws1 +:+ String "{" (body +:+ String "}" (ws2 +:+ "]")))
              /\ all_space ws1 = true /\ all_space ws2 = true).
  { intros (pre & ws1 & body & ws2 & post & -> & -> & H1 & H2)%IH.
    now exists (String c pre), ws1, body, ws2, post. }
  destruct (Ascii.eqb_spec c "[") as [->|Hc]; [|exact Hrec].
  destruct (Re.open_body r) as [m'|] eqn:Hr; [|exact Hrec].
  intros [= <-].
  apply open_body_some in Hr as (ws1 & body & ws2 & post & -> & -> & H1 & H2).
  now exists "", ws1, body, ws2, post.
Qed.

Lemma search_array_complete (pre ws1 body ws2 post : string) :
  all_space ws1 = true -> all_space ws2 = true ->
  is_Some (Re.search_array
             (pre +:+ String "["
                (ws1 +:+ String "{"
                   (body +:+ String "}" (ws2 +:+ String "]" post))))).
Proof.
  intros H1 H2. induction pre as [|c pre IH]; simpl.
  - destruct (open_body_complete ws1 body ws2 post H1 H2) as [m ->].
    now eexists.
  - destruct IH as [m ->].
    destruct (Ascii.eqb c "["); [|now eexists].
    destruct (Re.open_body _); now eexists.
Qed.

(** X2.  The text that the flashcard parser hands to the JSON decoder is an
    excerpt of the reply that opens with a bracket, blanks and a brace and
    closes with a brace, blanks and a bracket; and the parser finds such an
    excerpt whenever the reply has one. *)
Theorem search_array_bracketed (s : string) :
  match Re.search_array s with
  | Some m =>
      exists pre ws1 body ws2 post,
        s = pre +:+ String "["
              (ws1 +:+ String "{"
                 (body +:+ String "}" (ws2 +:+ String "]" post)))
        /\ m = String "["
                 (ws1 +:+ String "{" (body +:+ String "}" (ws2 +:+ "]")))
        /\ all_space ws1 = true /\ all_space ws2 = true
  | None =>
      forall pre ws1 body ws2 post,
        all_space ws1 = true -> all_space ws2 = true ->
        s <> pre +:+ String "["
               (ws1 +:+ String "{"
                  (body +:+ String "}" (ws2 +:+ String "]" post)))
  end.
Proof.
  destruct (Re.search_array s) as [m|] eqn:Hs.
  - now apply search_array_some.
  - intros pre ws1 body ws2 post H1 H2 ->.
    destruct (search_array_complete pre ws1 body ws2 post H1 H2) as [m Hm].
    congruence.
Qed.

(** ** The batch of flashcards *)

Lemma collect_flashcards_non_dict (E : Env) (cards acc : list pyval)
    (w : World) (bad : pyval) :
  bad ∈ cards -> is_dict bad = false ->
  collect_flashcards E cards acc w = (Raise AttributeError, w).
Proof.
  intros Hin Hbad. revert acc.
  induction cards as [|card rest IH]; intros acc; [now apply elem_of_nil in Hin|].
  apply elem_of_cons in Hin as [<- | Hin].
  - destruct bad; try discriminate; reflexivity.
  - simpl. unfold bind, lift.
    destruct (Py.get card "front" (PStr "")) as [f| |] eqn:Hf;
      [|destruct card; try discriminate; now injection Hf as <-
       |destruct card; discriminate].
    destruct (Py.get card "back" (PStr "")) as [b| |] eqn:Hb;
      [|destruct card; discriminate..].
    destruct (Str.nonempty _ && Str.nonempty _); apply (IH Hin).
Qed.

(** X3.  One element of the decoded array that is no object voids the whole
    batch: the wrapper then hands back no card at all, whatever the other
    elements are. *)
Theorem flashcard_batch_voided (E : Env) (context : string) (count : nat)
    (w : World) (backend : World -> ChatRequest -> option string)
    (content matched : string) (cards : list pyval) (bad : pyval) :
  GROQ_AVAILABLE E = true ->
  client E = Some backend ->
  backend (log_client_call (FlashcardCall count) w)
    (flashcard_request context count) = Some content ->
  Re.search_array (Str.strip content) = Some matched ->
  json_loads E matched = Some (PList cards) ->
  bad ∈ cards -> is_dict bad = false ->
  fst (_generate_flashcards_from_context E context count w) = Ok [].
Proof.
  intros Havail Hclient Hreply Hmatch Hloads Hin Hbad.
  unfold _generate_flashcards_from_context, groq_unusable, bind, try_except,
    enter, chat_completions_create, json_loads_py, lift, ret.
  rewrite Havail, Hclient. simpl. rewrite Hreply, Hmatch, Hloads. simpl.
  now rewrite (collect_flashcards_non_dict E cards [] _ bad Hin Hbad).
Qed.

(** X3 at work: the number between the two cards costs both of them. *)
Lemma flashcard_batch_voided_witness :
  generate_flashcards mixed_env 1 1 "easy" world0
  = (Ok (flashcards_success "easy" []),
     snd (generate_flashcards mixed_env 1 1 "easy" world0))
  /\ fst (_generate_flashcards_from_context mixed_env lecture 5 world0) = Ok [].
Proof.
  split; [vm_compute; reflexivity|].
  assert (Hmatch : Re.search_array (Str.strip mixed_literal) = Some mixed_literal)
    by (vm_compute; reflexivity).
  assert (Hloads : json_loads mixed_env mixed_literal = Some (PList mixed_value))
    by (vm_compute; reflexivity).
  assert (Hin : PInt 7 ∈ mixed_value)
    by (apply list_elem_of_In; simpl; auto).
  exact (flashcard_batch_voided mixed_env lecture 5 world0 mixed_backend
           mixed_literal mixed_literal mixed_value (PInt 7)
           eq_refl eq_refl eq_refl Hmatch Hloads Hin eq_refl).
Defined.

(** ** Without a usable client *)

Lemma generate_mcq_unusable (E : Env) (context : string) (asked : gset string)
    (w : World) :
  groq_unusable E = true ->
  _generate_mcq_from_context E context asked w
  = (Ok (PDict []), log_client_call McqCall w).
Proof.
  intros Hu. unfold _generate_mcq_from_context, bind, enter. now rewrite Hu.
Qed.

Lemma generate_flashcards_wrapper_unusable (E : Env) (context : string)
    (count : nat) (w : World) :
  groq_unusable E = true ->
  _generate_flashcards_from_context E context count w
  = (Ok [], log_client_call (FlashcardCall count) w).
Proof.
  intros Hu. unfold _generate_flashcards_from_context, bind, enter.
  now rewrite Hu.
Qed.

Lemma quiz_loop_unusable (E : Env) (context : string) (count : nat)
    (w : World) :
  groq_unusable E = true ->
  returns (quiz_loop E context count) w (fun st w' =>
    questions st = [] /\ llm_requests w' = llm_requests w).
Proof.
  intros Hu.
  eapply returns_mono.
  - unfold quiz_loop.
    apply while_returns
      with (I := fun st w' => questions st = []
                              /\ llm_requests w' = llm_requests w)
           (measure := fun st => count * 4 - attempts st).
    + intros st w1 [Hempty Hreqs] [_ Hleft]%quiz_continue_true.
      unfold returns, quiz_iteration.
      rewrite (bind_run _ _ _ _ _
                 (generate_mcq_unusable E context (asked_questions st) w1 Hu)).
      simpl. repeat split; auto. lia.
    + now split.
    + simpl. lia.
  - now intros st w' [H _].
Qed.

(** X4.  When the client is unusable (no credential, or the client object
    was never built) no request is ever sent: [generate_quiz] can only
    fail, with one of its three messages, and [generate_flashcards] either
    fails or reports a success with no flashcards. *)
Theorem unusable_client_sends_nothing (E : Env) (subject_id unit_id : Z)
    (difficulty : string) (w : World) :
  groq_unusable E = true ->
  returns (generate_quiz E subject_id unit_id difficulty) w
    (fun envelope w' =>
       (exists message,
          envelope = _empty_quiz message /\ message ∈ quiz_messages)
       /\ llm_requests w' = llm_requests w)
  /\ returns (generate_flashcards E subject_id unit_id difficulty) w
       (fun envelope w' =>
          (envelope = flashcards_failure
           \/ envelope = flashcards_success difficulty [])
          /\ llm_requests w' = llm_requests w).
Proof.
  intros Hu. split.
  - destruct (RAG_AVAILABLE E) eqn:Hrag.
    + destruct (Nat.lt_ge_cases
                  (String.length (quiz_context E subject_id unit_id w)) 200)
        as [Hshort|Hlong].
      * eapply returns_intro; [now apply generate_quiz_short|].
        split; [|reflexivity].
        eexists. split; [reflexivity|]. unfold quiz_messages. set_solver.
      * unfold returns. rewrite generate_quiz_long by assumption.
        pose proof (quiz_loop_unusable E
                      (quiz_context E subject_id unit_id w)
                      (dict_get DIFFICULTY_QUESTION_COUNT difficulty 8)
                      (log_retrieval (subject_id, unit_id, 40%Z) w) Hu)
          as Hloop.
        apply returns_elim in Hloop as (st & w' & Hrun & Hempty & Hreqs).
        rewrite (bind_run _ _ _ _ _ Hrun), Hempty. simpl.
        split; [|exact Hreqs].
        eexists. split; [reflexivity|]. unfold quiz_messages. set_solver.
    + eapply returns_intro; [now apply generate_quiz_no_rag|].
      split; [|reflexivity].
      eexists. split; [reflexivity|]. unfold quiz_messages. set_solver.
  - destruct (RAG_AVAILABLE E) eqn:Hrag.
    + destruct (Nat.lt_ge_cases
                  (String.length (flashcard_context E subject_id unit_id w)) 200)
        as [Hshort|Hlong].
      * eapply returns_intro; [now apply generate_flashcards_short|]. auto.
      * unfold returns. rewrite generate_flashcards_long by assumption.
        rewrite (bind_run _ _ _ _ _
                   (generate_flashcards_wrapper_unusable E _ _ _ Hu)).
        simpl. auto.
    + eapply returns_intro; [now apply generate_flashcards_no_rag|]. auto.
Qed.

(** X4 at work: no credential, a long context. *)
Lemma unusable_client_witness :
  groq_unusable offline_env = true
  /\ generate_flashcards offline_env 1 1 "hard" world0
     = (Ok (flashcards_success "hard" []),
        mkWorld [(1, 1, 30)%Z] [FlashcardCall 10] [])
  /\ returns (generate_quiz offline_env 1 1 "hard") world0
       (fun envelope w' =>
          (exists message,
             envelope = _empty_quiz message /\ message ∈ quiz_messages)
          /\ llm_requests w' = llm_requests world0).
Proof.
  assert (Hu : groq_unusable offline_env = true) by reflexivity.
  split; [exact Hu|]. split; [vm_compute; reflexivity|].
  exact (proj1 (unusable_client_sends_nothing offline_env 1 1 "hard" world0 Hu)).
Defined.

(** ** A failing document service *)

(** X5.  A retrieval that raises, or that finds no chunk, is taken as an
    empty context: with the document service imported, [generate_quiz]
    answers "Insufficient content" and [generate_flashcards] its failure
    envelope, each after its one retrieval (of 40 and of 30 chunks) and
    without invoking the text-generation client. *)
Theorem failed_retrieval_is_insufficient_content (E : Env)
    (subject_id unit_id : Z) (difficulty : string) (w : World) :
  RAG_AVAILABLE E = true ->
  (retrieve_context E w subject_id unit_id 40 = None
   \/ retrieve_context E w subject_id unit_id 40 = Some [] ->
   generate_quiz E subject_id unit_id difficulty w
   = (Ok (_empty_quiz "Insufficient content"),
      mkWorld (rag_calls w ++ [(subject_id, unit_id, 40%Z)])
        (client_calls w) (llm_requests w)))
  /\ (retrieve_context E w subject_id unit_id 30 = None
      \/ retrieve_context E w subject_id unit_id 30 = Some [] ->
      generate_flashcards E subject_id unit_id difficulty w
      = (Ok flashcards_failure,
         mkWorld (rag_calls w ++ [(subject_id, unit_id, 30%Z)])
           (client_calls w) (llm_requests w))).
Proof.
  intros Hrag. split; intros Hnone.
  - apply generate_quiz_short; [exact Hrag|].
    unfold quiz_context, retrieved. destruct Hnone as [-> | ->]; simpl; lia.
  - apply generate_flashcards_short; [exact Hrag|].
    unfold flashcard_context, retrieved.
    destruct Hnone as [-> | ->]; simpl; lia.
Qed.

(** X5 at work: a document service that raises on every call. *)
Lemma failed_retrieval_witness :
  RAG_AVAILABLE broken_rag_env = true
  /\ retrieve_context broken_rag_env world0 3 2 40 = None
  /\ retrieve_context broken_rag_env world0 3 2 30 = None
  /\ generate_quiz broken_rag_env 3 2 "easy" world0
     = (Ok (_empty_quiz "Insufficient content"), mkWorld [(3, 2, 40)%Z] [] [])
  /\ generate_flashcards broken_rag_env 3 2 "easy" world0
     = (Ok flashcards_failure, mkWorld [(3, 2, 30)%Z] [] []).
Proof.
  pose proof (failed_retrieval_is_insufficient_content broken_rag_env 3 2
                "easy" world0 eq_refl) as [Hquiz Hcards].
  split; [reflexivity|]. split; [reflexivity|]. split; [reflexivity|].
  split; [exact (Hquiz (or_introl eq_refl))|exact (Hcards (or_introl eq_refl))].
Defined.

(** ** What a quiz costs *)

(** X6.  With the document service there and a context of at least 200
    characters, the retry loop stops early only on a full quota: a result
    that has fewer questions than the target count comes after exactly
    four times the target count invocations of the client. *)
Theorem short_quiz_spent_its_budget (E : Env) (subject_id unit_id : Z)
    (difficulty : string) (w : World) :
  RAG_AVAILABLE E = true ->
  200 <= String.length (quiz_context E subject_id unit_id w) ->
  returns (generate_quiz E subject_id unit_id difficulty) w
    (fun envelope w' =>
       length (envelope_questions envelope) = target_count difficulty
       \/ client_calls w'
          = (client_calls w
             ++ repeat McqCall (target_count difficulty * 4))%list).
Proof.
  intros Hrag Hlong.
  eapply returns_mono; [apply generate_quiz_run|].
  unfold quiz_outcome. rewrite dict_get_table.
  intros envelope w'
    [(Hoff & _) | [(_ & Hshort & _) | (_ & _ & st & _ & Hinv & Hstop & ->)]];
    [congruence|lia|].
  apply quiz_continue_false in Hstop. destruct Hinv.
  assert (Hqs : envelope_questions
                  match questions st with
                  | [] => _empty_quiz "MCQ generation failed"
                  | _ :: _ => quiz_success difficulty (questions st)
                  end = questions st)
    by (now destruct (questions st)).
  rewrite Hqs.
  destruct Hstop as [Hfull | Hspent]; [left; lia|].
  right. assert (Hall : attempts st = target_count difficulty * 4) by lia.
  now rewrite <- Hall.
Qed.

(** X6 at work: the repeating backend; one question instead of five, after
    20 invocations. *)
Lemma short_quiz_witness :
  RAG_AVAILABLE chatty_env = true
  /\ 200 <= String.length (quiz_context chatty_env 1 1 world0)
  /\ returns (generate_quiz chatty_env 1 1 "easy") world0
       (fun envelope w' =>
          length (envelope_questions envelope) = 1
          /\ client_calls w' = repeat McqCall 20).
Proof.
  assert (Hrag : RAG_AVAILABLE chatty_env = true) by reflexivity.
  assert (Hlong : 200 <= String.length (quiz_context chatty_env 1 1 world0))
    by (vm_compute; lia).
  split; [exact Hrag|]. split; [exact Hlong|].
  pose proof (short_quiz_spent_its_budget chatty_env 1 1 "easy" world0
                Hrag Hlong) as Hrun.
  unfold returns in *.
  destruct (generate_quiz chatty_env 1 1 "easy" world0) as [[envelope| |] w']
    eqn:Hq; try contradiction.
  vm_compute in Hq. injection Hq as <- <-.
  split; reflexivity.
Defined.

(** The single-question wrapper has output only after a request. *)
Lemma generate_mcq_output_costs_request (E : Env) (context : string)
    (asked : gset string) (w : World) :
  returns (_generate_mcq_from_context E context asked) w (fun v w' =>
    (v = PDict [] /\ length (llm_requests w) <= length (llm_requests w'))
    \/ length (llm_requests w') = length (llm_requests w) + 1).
Proof.
  unfold returns, _generate_mcq_from_context, bind, try_except,
    enter, chat_completions_create, json_loads_py, lift, ret.
  destruct (groq_unusable E); simpl; [now left|].
  destruct (client E) as [backend|]; simpl; [|now left].
  destruct (backend (log_client_call McqCall w) (mcq_request context asked))
    as [content|]; simpl;
    [|left; split; [reflexivity|rewrite length_app; lia]].
  assert (Hsent : length (llm_requests w ++ [mcq_request context asked])
                  = length (llm_requests w) + 1)
    by (rewrite length_app; reflexivity).
  destruct (Re.search_object (Str.strip content)) as [matched|]; simpl;
    [|left; split; [reflexivity|lia]].
  destruct (json_loads E matched) as [data|]; simpl;
    [|left; split; [reflexivity|lia]].
  rewrite mcq_accepts_run.
  destruct data; try (simpl; left; split; [reflexivity|lia]).
  destruct (well_formed_mcq (PDict entries)); simpl;
    [now right|left; split; [reflexivity|lia]].
Qed.

Lemma dedup_step_questions (st : QuizLoop) (v : pyval) :
  (questions (dedup_step st v) = questions st
   \/ (v <> PDict [] /\ questions (dedup_step st v) = (questions st ++ [v])%list))
  /\ attempts (dedup_step st v) = attempts st + 1.
Proof.
  unfold dedup_step.
  destruct (question_key v) as [k|] eqn:Hk; [|now auto].
  destruct (bool_decide (k ∈ asked_questions st)); simpl; [now auto|].
  split; [|reflexivity]. right. split; [|reflexivity].
  intros ->. discriminate.
Qed.

(** X7.  Every question of a quiz was paid for with a request of its own:
    the result never holds more questions than requests were sent to the
    backend during the call. *)
Theorem quiz_questions_cost_requests (E : Env) (subject_id unit_id : Z)
    (difficulty : string) (w : World) :
  returns (generate_quiz E subject_id unit_id difficulty) w
    (fun envelope w' =>
       length (llm_requests w) + length (envelope_questions envelope)
       <= length (llm_requests w')).
Proof.
  destruct (RAG_AVAILABLE E) eqn:Hrag;
    [|eapply returns_intro; [now apply generate_quiz_no_rag|simpl; lia]].
  destruct (Nat.lt_ge_cases
              (String.length (quiz_context E subject_id unit_id w)) 200)
    as [Hshort|Hlong];
    [eapply returns_intro; [now apply generate_quiz_short|simpl; lia]|].
  unfold returns. rewrite generate_quiz_long by assumption.
  set (context := quiz_context E subject_id unit_id w).
  set (count := dict_get DIFFICULTY_QUESTION_COUNT difficulty 8).
  set (w1 := log_retrieval (subject_id, unit_id, 40%Z) w).
  assert (Hloop : returns (quiz_loop E context count) w1 (fun st w' =>
            length (llm_requests w1) + length (questions st)
            <= length (llm_requests w'))).
  { eapply returns_mono.
    - unfold quiz_loop.
      apply while_returns
        with (I := fun st w' =>
                     length (llm_requests w1) + length (questions st)
                     <= length (llm_requests w'))
             (measure := fun st => count * 4 - attempts st).
      + intros st w2 Hpaid [_ Hleft]%quiz_continue_true.
        pose proof (generate_mcq_output_costs_request E context
                      (asked_questions st) w2) as Hcall.
        apply returns_elim in Hcall as (v & w3 & Hrun & Hcost).
        eapply returns_mono; [apply quiz_iteration_dedup|].
        intros st' w' (v' & Hrun' & ->). rewrite Hrun in Hrun'.
        injection Hrun' as <- <-.
        destruct (dedup_step_questions st v) as [Hqs ->].
        split; [|lia].
        destruct Hqs as [-> | [Hv ->]].
        * destruct Hcost as [[_ Hle] | Heq]; lia.
        * rewrite length_app. unfold w1 in *. simpl in *.
          destruct Hcost as [[-> _] | Heq]; [contradiction|lia].
      + simpl. lia.
      + simpl. lia.
    - now intros st w' [H _]. }
  apply returns_elim in Hloop as (st & w' & Hrun & Hpaid).
  rewrite (bind_run _ _ _ _ _ Hrun).
  unfold w1 in *.
  destruct (questions st) as [|q qs] eqn:Hqs; simpl in *; lia.
Qed.

(** ** Module set-up *)

(** X8.  After the set-up of the module the two things that
    [_generate_mcq_from_context] and [_generate_flashcards_from_context]
    test before a call agree: [GROQ_AVAILABLE] is true exactly when the
    client was built, which takes a successful import, a key that after
    trimming starts with "gsk_", and a constructor that does not raise. *)
Theorem groq_setup_flags_agree
    (Groq : option (string -> option (World -> ChatRequest -> option string)))
    (GROQ_API_KEY : option string) :
  let key := Str.strip (default "" GROQ_API_KEY) in
  fst (groq_setup Groq GROQ_API_KEY)
  = bool_decide (is_Some (snd (groq_setup Groq GROQ_API_KEY)))
  /\ (fst (groq_setup Groq GROQ_API_KEY) = true
      <-> exists connect,
            Groq = Some connect
            /\ String.prefix "gsk_" key = true
            /\ is_Some (connect key)
            /\ snd (groq_setup Groq GROQ_API_KEY) = connect key).
Proof.
  unfold groq_setup. simpl.
  destruct Groq as [connect|]; simpl.
  - destruct (Str.nonempty _) eqn:Hne; simpl.
    + destruct (String.prefix "gsk_" _) eqn:Hpre; simpl.
      * destruct (connect _) as [backend|] eqn:Hc; simpl.
        -- split; [reflexivity|]. split; [|reflexivity]. intros _.
           exists connect. rewrite Hc. repeat split; eauto.
        -- split; [reflexivity|]. split; [discriminate|].
           intros (connect' & [= <-] & _ & [b Hb] & _). congruence.
      * split; [reflexivity|]. split; [discriminate|].
        intros (connect' & _ & Hp & _). congruence.
    + split; [reflexivity|]. split; [discriminate|].
      intros (connect' & _ & Hp & _).
      destruct (Str.strip (default "" GROQ_API_KEY)); discriminate.
  - split; [reflexivity|]. split; [discriminate|].
    intros (connect' & Hnone & _). discriminate.
Qed.

(** ** The size of a prompt *)

Lemma string_length_app (a b : string) :
  String.length (a +:+ b) = String.length a + String.length b.
Proof. induction a as [|c a IH]; simpl; [reflexivity|now rewrite IH]. Qed.

Lemma prefix_length (n : nat) (s : string) :
  String.length (Str.prefix n s) = Nat.min n (String.length s).
Proof.
  unfold Str.prefix. revert s.
  induction n as [|n IH]; intros [|c s]; simpl; auto.
Qed.

(** X9.  The size of a prompt does not grow with the context beyond the
    cut: a batch prompt has 206 characters of frame, the digits of the
    count and at most 4000 characters of study material (at most 4208 in
    all for a count of the table); a single-question prompt has 399
    characters of frame, the list of previous questions and at most 3000
    characters of study material. *)
Theorem prompt_lengths (context : string) (count : nat) (asked : gset string)
    (difficulty : string) :
  String.length (flashcard_prompt context count)
  = 206 + String.length (Str.of_nat count)
    + Nat.min 4000 (String.length context)
  /\ String.length (flashcard_prompt context (target_count difficulty)) <= 4208
  /\ String.length (mcq_prompt context asked)
     = 399 + String.length (mcq_previous asked)
       + Nat.min 3000 (String.length context).
Proof.
  assert (Hcards : forall n,
            String.length (flashcard_prompt context n)
            = 206 + String.length (Str.of_nat n)
              + Nat.min 4000 (String.length context)).
  { intros n. unfold flashcard_prompt. rewrite <- prefix_length.
    generalize (Str.prefix 4000 context) as material.
    generalize (Str.of_nat n) as number. intros number material.
    cbn [Str.join]. unfold Str.quoted, Str.nl, Str.dq.
    repeat (rewrite string_length_app; cbn [String.length]).
    lia. }
  split; [apply Hcards|]. split.
  - rewrite Hcards.
    assert (Hdigits : String.length (Str.of_nat (target_count difficulty)) <= 2).
    { unfold target_count.
      destruct (String.eqb difficulty "easy"); [vm_compute; lia|].
      destruct (String.eqb difficulty "medium"); [vm_compute; lia|].
      destruct (String.eqb difficulty "hard"); vm_compute; lia. }
    lia.
  - unfold mcq_prompt. rewrite <- prefix_length.
    generalize (Str.prefix 3000 context) as material.
    generalize (mcq_previous asked) as previous. intros previous material.
    cbn [Str.join]. unfold Str.quoted, Str.nl, Str.dq.
    repeat (rewrite string_length_app; cbn [String.length]).
    lia.
Qed.

(** ** The size of a context *)

Lemma join_length (sep : string) (parts : list string) :
  String.length (Str.join sep parts)
  = total_length parts + String.length sep * (length parts - 1).
Proof.
  induction parts as [|p rest IH]; [simpl; lia|].
  destruct rest as [|q rest]; [simpl; lia|].
  change (Str.join sep (p :: q :: rest))
    with (p +:+ sep +:+ Str.join sep (q :: rest)).
  rewrite !string_length_app, IH. simpl. lia.
Qed.

(** X10.  The context that is measured against the threshold of 200 is
    made of the chunks that have a text and of one blank between two of
    them: its length is the sum of the lengths of the texts plus their
    number less one; chunks with a missing or empty text add nothing. *)
Theorem context_length (chunks : list Chunk) :
  String.length (assemble_context chunks)
  = total_length (chunk_texts chunks) + (length (chunk_texts chunks) - 1)
  /\ Forall (fun t => t <> "") (chunk_texts chunks)
  /\ forall before after,
       assemble_context (before ++ mkChunk None :: after)
       = assemble_context (before ++ after)
       /\ assemble_context (before ++ mkChunk (Some "") :: after)
          = assemble_context (before ++ after).
Proof.
  split; [|split].
  - unfold assemble_context. rewrite join_length. simpl. lia.
  - unfold chunk_texts. induction chunks as [|[[t|]] rest IH]; simpl; auto.
    destruct t; simpl; auto.
  - intros before after. unfold assemble_context, chunk_texts.
    now rewrite !omap_app.
Qed.

(** ** Password strength *)

Lemma search_class_app (cls : ascii -> bool) (a b : string) :
  search_class cls (a +:+ b) = search_class cls a || search_class cls b.
Proof.
  induction a as [|c a IH]; simpl; [reflexivity|].
  now rewrite IH, orb_assoc.
Qed.

Lemma search_class_exists (cls : ascii -> bool) (s : string) :
  search_class cls s = true
  <-> exists c, has_char c s = true /\ cls c = true.
Proof.
  induction s as [|c r IH]; simpl.
  - split; [discriminate|]. now intros (c & Hc & _).
  - rewrite orb_true_iff, IH. split.
    + intros [Hc | (d & Hd & Hcls)].
      * exists c. now rewrite Ascii.eqb_refl.
      * exists d. now rewrite Hd, orb_true_r.
    + intros (d & Hd & Hcls). apply orb_true_iff in Hd as [Heq | Hd].
      * apply Ascii.eqb_eq in Heq as ->. now left.
      * right. now exists d.
Qed.

Lemma validate_password_accepts (password : string) :
  validate_password_strength password = PNone
  <-> 8 <= String.length password
      /\ search_class upper_class password = true
      /\ search_class lower_class password = true
      /\ search_class digit_class password = true
      /\ search_class special_class password = true.
Proof.
  unfold validate_password_strength.
  destruct (Nat.ltb_spec (String.length password) 8) as [Hshort|Hlong];
    [split; [discriminate|lia]|].
  destruct (search_class upper_class password); simpl;
    [|split; [discriminate|now intros (_ & ? & _)]].
  destruct (search_class lower_class password); simpl;
    [|split; [discriminate|now intros (_ & _ & ? & _)]].
  destruct (search_class digit_class password); simpl;
    [|split; [discriminate|now intros (_ & _ & _ & ? & _)]].
  destruct (search_class special_class password); simpl;
    [|split; [discriminate|now intros (_ & _ & _ & _ & ?)]].
  tauto.
Qed.

(** X11.  What [validate_password_strength] answers, rule by rule: no
    complaint exactly for a password of at least 8 characters that has a
    letter A-Z, a letter a-z, a digit 0-9 and one of the twenty special
    characters; otherwise the complaint about the first rule broken, in
    the order length, uppercase, lowercase, number, special character. *)
Theorem validate_password_rules (password : string) :
  let has cls := exists c, has_char c password = true /\ cls c = true in
  (validate_password_strength password = PNone
   <-> 8 <= String.length password
       /\ has upper_class /\ has lower_class /\ has digit_class
       /\ has special_class)
  /\ (validate_password_strength password
      = PStr "Password must be at least 8 characters long"
      <-> String.length password < 8)
  /\ (validate_password_strength password
      = PStr "Password must contain at least one uppercase letter"
      <-> 8 <= String.length password /\ ~ has upper_class)
  /\ (validate_password_strength password
      = PStr "Password must contain at least one lowercase letter"
      <-> 8 <= String.length password /\ has upper_class
          /\ ~ has lower_class)
  /\ (validate_password_strength password
      = PStr "Password must contain at least one number"
      <-> 8 <= String.length password /\ has upper_class
          /\ has lower_class /\ ~ has digit_class)
  /\ (validate_password_strength password
      = PStr "Password must contain at least one special character"
      <-> 8 <= String.length password /\ has upper_class
          /\ has lower_class /\ has digit_class /\ ~ has special_class).
Proof.
  cbv zeta. rewrite <- !search_class_exists.
  unfold validate_password_strength.
  destruct (Nat.ltb_spec (String.length password) 8) as [Hshort|Hlong].
  - repeat split; (discriminate || lia || tauto || (intros; lia)).
  - destruct (search_class upper_class password),
             (search_class lower_class password),
             (search_class digit_class password),
             (search_class special_class password); simpl;
      repeat split;
      (discriminate || lia || (intros; intuition (discriminate || lia || auto))).
Qed.

(** X12.  A password that passes still passes with anything put before or
    after it. *)
Theorem strong_password_stays_strong (before password after : string) :
  validate_password_strength password = PNone ->
  validate_password_strength (before +:+ password +:+ after) = PNone.
Proof.
  rewrite !validate_password_accepts. intros (Hlen & Hu & Hl & Hd & Hs).
  rewrite !string_length_app, !search_class_app, Hu, Hl, Hd, Hs.
  rewrite !orb_true_r. simpl. repeat split; auto. lia.
Qed.

Lemma strong_password_witness :
  validate_password_strength "Dcet@2024" = PNone
  /\ validate_password_strength ("  " +:+ "Dcet@2024" +:+ "xyz") = PNone.
Proof.
  assert (Hok : validate_password_strength "Dcet@2024" = PNone) by reflexivity.
  split; [exact Hok|].
  exact (strong_password_stays_strong "  " "Dcet@2024" "xyz" Hok).
Defined.

Lemma classes_disjoint (c : ascii) :
  (upper_class c = true -> lower_class c = false /\ digit_class c = false
                           /\ special_class c = false)
  /\ (lower_class c = true -> digit_class c = false /\ special_class c = false)
  /\ (digit_class c = true -> special_class c = false).
Proof.
  destruct c as [[|] [|] [|] [|] [|] [|] [|] [|]]; vm_compute;
    repeat split; intros; congruence.
Qed.

(** X13.  A password that passes has at least eight characters, four of
    them different from one another: an upper-case letter, a lower-case
    letter, a digit and a special character. *)
Theorem strong_password_has_four_characters (password : string) :
  validate_password_strength password = PNone ->
  8 <= String.length password
  /\ exists u l d s,
       has_char u password = true /\ has_char l password = true
       /\ has_char d password = true /\ has_char s password = true
       /\ upper_class u = true /\ lower_class l = true
       /\ digit_class d = true /\ special_class s = true
       /\ u <> l /\ u <> d /\ u <> s /\ l <> d /\ l <> s /\ d <> s.
Proof.
  rewrite validate_password_accepts. intros (Hlen & Hu & Hl & Hd & Hs).
  split; [exact Hlen|].
  apply search_class_exists in Hu as (u & Hu & Hcu).
  apply search_class_exists in Hl as (l & Hl & Hcl).
  apply search_class_exists in Hd as (d & Hd & Hcd).
  apply search_class_exists in Hs as (s & Hs & Hcs).
  exists u, l, d, s.
  destruct (classes_disjoint u) as (Hdu & _ & _).
  destruct (classes_disjoint l) as (_ & Hdl & _).
  destruct (classes_disjoint d) as (_ & _ & Hdd).
  specialize (Hdu Hcu) as (Hul & Hud & Hus).
  specialize (Hdl Hcl) as (Hld & Hls). specialize (Hdd Hcd).
  repeat split; auto; intros ->; congruence.
Qed.

Lemma strong_password_four_witness :
  validate_password_strength "Dcet@2024" = PNone
  /\ 8 <= String.length "Dcet@2024"
  /\ exists u l d s,
       has_char u "Dcet@2024" = true /\ has_char l "Dcet@2024" = true
       /\ has_char d "Dcet@2024" = true /\ has_char s "Dcet@2024" = true
       /\ upper_class u = true /\ lower_class l = true
       /\ digit_class d = true /\ special_class s = true
       /\ u <> l /\ u <> d /\ u <> s /\ l <> d /\ l <> s /\ d <> s.
Proof.
  assert (Hok : validate_password_strength "Dcet@2024" = PNone) by reflexivity.
  split; [exact Hok|].
  exact (strong_password_has_four_characters "Dcet@2024" Hok).
Defined.

(** ** Accounts *)

Example register_asha :
  student_register table_env " Asha@Example.org " "Dcet@2024" " asha "
    "DCET1" "GPT" None empty_site
  = (Returned
       (PDict [ ("success", PBool true);
                ("message",
                 PStr "Registration successful. Verification email sent.");
                ("user",
                 PDict [ ("id", PInt 1); ("email", PStr "asha@example.org");
                         ("username", PStr "asha");
                         ("role", PStr "student") ]) ]),
     asha_site).
Proof. vm_compute. reflexivity. Qed.

Example forgot_asha :
  forgot_password_route table_env [("email", " asha@example.org ")] asha_site
  = (Returned
       (Json (PDict [ ("success", PBool true);
                      ("message",
                       PStr "Password reset link sent to your email") ]) 200),
     asha_reset_site).
Proof. vm_compute. reflexivity. Qed.

Lemma validate_password_complains (password : string) :
  validate_password_strength password = PNone
  \/ Py.truthy (validate_password_strength password) = true.
Proof.
  unfold validate_password_strength.
  destruct (String.length password <? 8)%nat; [now right|].
  destruct (search_class upper_class password); [|now right].
  destruct (search_class lower_class password); [|now right].
  destruct (search_class digit_class password); [|now right].
  destruct (search_class special_class password); [now left|now right].
Qed.

(** X14.  [reset_password_route] does not look at what
    [update_user_password] answers: with a live reset token and a new
    password that is too weak, the reply is still "Password updated
    successfully"; the one write of the call is the row with its reset
    token cleared, its password hash as it was, and no salt is drawn. *)
Theorem reset_reports_success_for_weak_password {DB : Type} (A : AuthEnv DB)
    (token : string) (data : list (string * string)) (s : Site DB)
    (u u' : User.t) (db' : DB) :
  Str.nonempty (form_get data "password") = true ->
  validate_password_strength (form_get data "password") <> PNone ->
  first_by_reset_token A (db s) token (utcnow s) = Returned (Some u) ->
  first_by_id A (db s) (PInt (User.id u)) = Returned (Some u') ->
  commit A (db s) (with_reset_token u' None None) = Returned db' ->
  reset_password_route A token data s
  = (Returned
       (Json (PDict [ ("success", PBool true);
                      ("message", PStr "Password updated successfully") ]) 200),
     mkSite db' (utcnow s) (drawn s) (smtp_sessions s) (outbox s))
  /\ User.password_hash (with_reset_token u' None None)
     = User.password_hash u'.
Proof.
  intros Hgiven Hweak Htoken Hrow Hcommit. split; [|reflexivity].
  destruct (validate_password_complains (form_get data "password"))
    as [Hnone | Hcomplaint]; [contradiction|].
  unfold reset_password_route, get_user_by_reset_token, update_user_password,
    clear_reset_token, query_reset_token, query_id, db_commit, act_bind,
    act_lift, act_ret.
  rewrite Hgiven. simpl. rewrite Htoken. simpl. rewrite Hcomplaint. simpl.
  rewrite Hrow. simpl. now rewrite Hcommit.
Qed.

(** X14 at work: Asha's reset link, and the new password "weak". *)
Lemma reset_weak_password_witness :
  reset_password_route table_env "tok2" [("password", "weak")] asha_reset_site
  = (Returned
       (Json (PDict [ ("success", PBool true);
                      ("message", PStr "Password updated successfully") ]) 200),
     mkSite [asha] 0 3 [asha_reset_mail] [asha_reset_mail])
  /\ student_login table_env "asha@example.org" "weak"
       (mkSite [asha] 0 3 [asha_reset_mail] [asha_reset_mail])
     = (Returned (PDict [ ("success", PBool false);
                          ("message", PStr "Invalid email or password") ]),
        mkSite [asha] 0 3 [asha_reset_mail] [asha_reset_mail]).
Proof.
  split; [|vm_compute; reflexivity].
  assert (Hweak : validate_password_strength
                    (form_get [("password", "weak")] "password") <> PNone)
    by (vm_compute; discriminate).
  exact (proj1 (reset_reports_success_for_weak_password table_env "tok2"
                  [("password", "weak")] asha_reset_site
                  (with_reset_token asha (Some "tok2") (Some 1800%Z))
                  (with_reset_token asha (Some "tok2") (Some 1800%Z))
                  [asha] eq_refl Hweak eq_refl eq_refl eq_refl)).
Defined.

(** Case analysis on what the collaborators answer. *)
Ltac answer :=
  match goal with
  | |- context [match ?x with _ => _ end] =>
      lazymatch x with
      | context [match _ with _ => _ end] => fail
      | _ => destruct x eqn:?; simpl
      end
  end.

(** X15.  A login changes nothing: whatever the database, the hasher and
    the token library answer, [student_login] and [admin_login] leave the
    site as it was (no write, no draw, no mail).  And a refusal tells
    little: [admin_login] refuses with the one message "Invalid
    credentials", [student_login] with "Invalid email or password" or "Not
    a student account". *)
Theorem logins_leave_the_site {DB : Type} (A : AuthEnv DB)
    (email username password : string) (s : Site DB) :
  snd (student_login A email password s) = s
  /\ snd (admin_login A username password s) = s
  /\ match fst (student_login A email password s) with
     | Returned r =>
         field r "success" = Some (PBool true)
         \/ r = PDict [ ("success", PBool false);
                        ("message", PStr "Invalid email or password") ]
         \/ r = PDict [ ("success", PBool false);
                        ("message", PStr "Not a student account") ]
     | Raised _ => True
     end
  /\ match fst (admin_login A username password s) with
     | Returned r =>
         field r "success" = Some (PBool true)
         \/ r = PDict [ ("success", PBool false);
                        ("message", PStr "Invalid credentials") ]
     | Raised _ => True
     end.
Proof.
  unfold student_login, admin_login, create_access_token, query_email,
    query_username, datetime_utcnow, act_bind, act_lift, act_ret.
  repeat split; simpl; repeat answer; auto.
Qed.

(** ** Routes *)

Lemma split_on_first_word (s : string) :
  exists pieces, split_on " " s = first_word s :: pieces.
Proof.
  induction s as [|c r [pieces IH]]; simpl; [now eexists|].
  destruct (Ascii.eqb c " "); [now eexists|].
  rewrite IH. now eexists.
Qed.

Lemma prefix_app (p s : string) :
  String.prefix p s = true -> exists rest, s = p +:+ rest.
Proof.
  revert s. induction p as [|c p IH]; intros s; [now exists s|].
  destruct s as [|d s]; simpl; [discriminate|].
  destruct (ascii_dec c d) as [->|]; [|discriminate].
  intros [rest ->]%IH. now exists rest.
Qed.

Lemma split_on_word (w rest : string) :
  has_char " " w = false ->
  split_on " " (w +:+ String " " rest) = w :: split_on " " rest.
Proof.
  induction w as [|c w IH]; [reflexivity|].
  intros [Hc Hw]%orb_false_elim.
  change (String c w +:+ String " " rest)
    with (String c (w +:+ String " " rest)).
  cbn [split_on]. now rewrite Hc, (IH Hw).
Qed.

Lemma prefix_of_app (p rest : string) : String.prefix p (p +:+ rest) = true.
Proof.
  induction p as [|c p IH]; simpl; [now destruct rest|].
  now destruct (ascii_dec c c).
Qed.

(** X16.  [verify_token_route] never fails on its index into the pieces of
    the header: a header that does not start with "Bearer " is answered "No
    token provided" (401) with nothing looked up; for any other header the
    token that is looked up is the first word after "Bearer ", and whatever
    follows a further blank is ignored. *)
Theorem bearer_token_is_first_word {DB : Type} (A : AuthEnv DB)
    (header rest : string) (s : Site DB) :
  verify_token_route A ("Bearer " +:+ rest) s
  = act_bind (get_current_user A (first_word rest))
      (fun user => act_ret (token_reply user)) s
  /\ (verify_token_route A header s
      = (Returned (Json (PDict [ ("success", PBool false);
                                 ("message", PStr "No token provided") ]) 401),
         s)
      \/ exists rest', header = "Bearer " +:+ rest').
Proof.
  split.
  - unfold verify_token_route.
    rewrite (prefix_of_app "Bearer " rest).
    destruct (split_on_first_word rest) as [pieces Hpieces].
    assert (Hsplit : split_on " " ("Bearer " +:+ rest)
                     = "Bearer" :: first_word rest :: pieces)
      by (rewrite <- Hpieces; exact (split_on_word "Bearer" rest eq_refl)).
    rewrite Hsplit. unfold act_bind, act_lift, act_ret, token_reply. simpl.
    destruct (get_current_user A (first_word rest) s) as [[user|e] s'];
      [|reflexivity].
    now destruct (Py.truthy user).
  - unfold verify_token_route.
    destruct (String.prefix "Bearer " header) eqn:Hprefix; simpl.
    + right. now apply prefix_app.
    + now left.
Qed.

(** ** Mail *)

(** X17.  [send_reset_email] never raises and touches neither the database
    nor the draws.  Unless both [EMAIL_USER] and [EMAIL_PASS] are set (and
    not empty) it does nothing at all; otherwise it opens one SMTP session
    for the one mail to [to_email], which is delivered or, if the session
    raises, silently lost. *)
Theorem send_reset_email_quietly {DB : Type} (A : AuthEnv DB)
    (to_email reset_link : string) (s : Site DB) :
  exists s',
    send_reset_email A to_email reset_link s = (Returned tt, s')
    /\ db s' = db s /\ drawn s' = drawn s /\ utcnow s' = utcnow s
    /\ if env_set (EMAIL_USER A) && env_set (EMAIL_PASS A)
       then smtp_sessions s'
            = (smtp_sessions s ++ [reset_mail A to_email reset_link])%list
            /\ (outbox s' = outbox s
                \/ outbox s'
                   = (outbox s ++ [reset_mail A to_email reset_link])%list)
       else s' = s.
Proof.
  unfold send_reset_email, smtp_session, reset_mail.
  destruct (env_set (EMAIL_USER A)); simpl; [|now eexists].
  destruct (env_set (EMAIL_PASS A)); simpl; [|now eexists].
  destruct (smtp_delivers A (smtp_sessions s) _); eexists;
    (split; [reflexivity|]); simpl; auto 7.
Qed.

(** X18.  [forgot_password_route] has one kind of reply: whenever it
    returns, the status is 200 and [success] is true.  Either the site is
    as it was, or one token was drawn, the reply carries the message that a
    link was sent, and at most one SMTP session was opened, for the mail to
    the trimmed address with the link of that token. *)
Theorem forgot_password_always_succeeds {DB : Type} (A : AuthEnv DB)
    (data : list (string * string)) (s : Site DB) :
  match forgot_password_route A data s with
  | (Returned (Json body status), s') =>
      status = 200%Z
      /\ field body "success" = Some (PBool true)
      /\ (s' = s
          \/ (drawn s' = S (drawn s)
              /\ field body "message"
                 = Some (PStr "Password reset link sent to your email")
              /\ (smtp_sessions s' = smtp_sessions s
                  \/ smtp_sessions s'
                     = (smtp_sessions s
                        ++ [reset_mail A (Str.strip (form_get data "email"))
                              ("http://127.0.0.1:5000/reset-password/"
                               +:+ token_urlsafe A (drawn s))])%list)))
  | (Returned (Redirect _), _) => False
  | (Raised _, _) => True
  end.
Proof.
  unfold forgot_password_route, get_user_by_email, save_reset_token,
    query_email, query_id, db_commit, draw, datetime_utcnow, act_bind,
    act_lift, act_ret.
  set (email := Str.strip (form_get data "email")).
  destruct (Str.nonempty email); simpl; [|now auto].
  destruct (first_by_email A (db s) (Str.lower (Str.strip email)))
    as [[user|]|]; simpl; [|now auto|exact I].
  destruct (first_by_id A (db s) (PInt (User.id user))) as [[row|]|];
    simpl; [| |exact I].
  - destruct (commit A (db s) _) as [db'|]; simpl; [|exact I].
    match goal with
    | |- context [send_reset_email A ?e ?l ?st] =>
        destruct (send_reset_email_quietly A e l st)
          as (s' & -> & Hdb & Hdrawn & Hnow & Hmail)
    end.
    simpl in *. repeat split; auto. right. repeat split; auto.
    destruct (env_set (EMAIL_USER A) && env_set (EMAIL_PASS A));
      [right; apply Hmail|left; now rewrite Hmail].
  - match goal with
    | |- context [send_reset_email A ?e ?l ?st] =>
        destruct (send_reset_email_quietly A e l st)
          as (s' & -> & Hdb & Hdrawn & Hnow & Hmail)
    end.
    simpl in *. repeat split; auto. right. repeat split; auto.
    destruct (env_set (EMAIL_USER A) && env_set (EMAIL_PASS A));
      [right; apply Hmail|left; now rewrite Hmail].
Qed.

(** ** Registration *)

(** X19.  A registration that is refused leaves no trace: whenever
    [student_register] answers without success the site is as it was.
    A success took a password that passes [validate_password_strength], an
    address and a username that the database did not find, two draws (the
    verification token, then the salt) and one added row: the address
    trimmed and lower-cased, the username trimmed, the role "student", the
    hash of the password, and a verification token that expires 30 minutes
    later; the answer shows that row as [db.refresh] read it back.  A call
    that raises has not always left the database alone: either nothing was
    written, or the commit went through and [db.refresh] raised, and then
    the row is stored although the caller sees the exception. *)
Theorem registration_outcomes {DB : Type} (A : AuthEnv DB)
    (email password username dcet_reg_number college_name : string)
    (mobile_number : option string) (s : Site DB) :
  let registered (row : User.t) :=
    User.email row = Str.lower (Str.strip email)
    /\ User.username row = Str.strip username
    /\ User.role row = Some "student"
    /\ User.password_hash row = pbkdf2_hash A (S (drawn s)) password
    /\ User.email_verify_token row = Some (token_urlsafe A (drawn s))
    /\ User.email_verify_token_expiry row = Some (utcnow s + 1800)%Z in
  match student_register A email password username dcet_reg_number
          college_name mobile_number s with
  | (Returned r, s') =>
      (field r "success" = Some (PBool false) /\ s' = s)
      \/ (field r "success" = Some (PBool true)
          /\ validate_password_strength password = PNone
          /\ first_by_email A (db s) (Str.lower (Str.strip email))
             = Returned None
          /\ first_by_username A (db s) (Str.strip username) = Returned None
          /\ drawn s' = drawn s + 2
          /\ exists row stored user,
               registered row
               /\ commit_added A (db s) row = Returned (db s', stored)
               /\ refresh A (db s') stored = Returned user
               /\ field r "user"
                  = Some (PDict [ ("id", PInt (User.id user));
                                  ("email", PStr (User.email user));
                                  ("username", PStr (User.username user));
                                  ("role", of_option (User.role user)) ]))
  | (Raised e, s') =>
      db s' = db s
      \/ exists row stored,
           registered row
           /\ commit_added A (db s) row = Returned (db s', stored)
           /\ refresh A (db s') stored = Raised e
  end.
Proof.
  unfold student_register, create_email_verification_token, query_email,
    query_username, db_add, db_commit_added, db_refresh, draw,
    datetime_utcnow, act_bind, act_lift, act_ret.
  destruct (validate_password_complains password) as [Hok | Hweak];
    [rewrite Hok; simpl|rewrite Hweak; simpl; now left].
  destruct (first_by_email A (db s) _) as [[taken|]|] eqn:Hemail; simpl;
    [now left| |now left].
  destruct (first_by_username A (db s) _) as [[taken|]|] eqn:Hname; simpl;
    [now left| |now left].
  destruct (commit_added A (db s) _) as [[db' stored]|] eqn:Hadd; simpl;
    [|now left].
  destruct (refresh A db' stored) as [user|] eqn:Hfresh; simpl.
  - right. repeat split; auto; [lia|].
    match type of Hadd with
    | commit_added A _ ?row = _ => exists row, stored, user
    end.
    split; [simpl; repeat split|].
    split; [exact Hadd|]. split; [exact Hfresh|reflexivity].
  - right.
    match type of Hadd with
    | commit_added A _ ?row = _ => exists row, stored
    end.
    split; [simpl; repeat split|].
    split; [exact Hadd|exact Hfresh].
Qed.

Lemma registration_success {DB : Type} (A : AuthEnv DB)
    (email password username dcet_reg_number college_name : string)
    (mobile_number : option string) (s s' : Site DB) (r : pyval) :
  student_register A email password username dcet_reg_number college_name
    mobile_number s = (Returned r, s') ->
  field r "success" = Some (PBool true) ->
  first_by_email A (db s) (Str.lower (Str.strip email)) = Returned None
  /\ exists row stored row',
       commit_added A (db s) row = Returned (db s', stored)
       /\ refresh A (db s') stored = Returned row'
       /\ User.email row = Str.lower (Str.strip email)
       /\ User.role row = Some "student"
       /\ User.password_hash row = pbkdf2_hash A (S (drawn s)) password.
Proof.
  intros Hrun Hsuccess.
  pose proof (registration_outcomes A email password username dcet_reg_number
                college_name mobile_number s) as Hcases.
  cbv zeta in Hcases. rewrite Hrun in Hcases.
  destruct Hcases as [[Hfail _] | (_ & _ & Hemail & _ & _ & row & stored & row'
                                   & (He & _ & Hr & Hh & _) & Hadd & Hfresh
                                   & _)];
    [congruence|].
  split; [exact Hemail|]. now exists row, stored, row'.
Qed.

(** X20.  Registration and login fit together: over a database that finds
    again the row just added and a hasher that accepts its own hashes, a
    student who registered with success can log in right away with the
    same password, under any spelling of the address that trims and
    lower-cases to the same text. *)
Theorem registered_student_can_log_in {DB : Type} (A : AuthEnv DB)
    (email again password username dcet_reg_number college_name : string)
    (mobile_number : option string) (s s' : Site DB) (r : pyval) :
  keeps_rows A -> hasher_sound A ->
  student_register A email password username dcet_reg_number college_name
    mobile_number s = (Returned r, s') ->
  field r "success" = Some (PBool true) ->
  Str.lower (Str.strip again) = Str.lower (Str.strip email) ->
  exists token user,
    student_login A again password s'
    = (Returned (PDict [ ("success", PBool true);
                         ("message", PStr "Login successful");
                         ("token", PStr token);
                         ("user", user) ]), s').
Proof.
  intros Hstore Hhasher Hrun Hsuccess Hsame.
  destruct (registration_success A _ _ _ _ _ _ _ _ _ Hrun Hsuccess)
    as (Hfree & row & stored & row' & Hadd & Hfresh & Hemail & Hrole & Hhash).
  rewrite <- Hemail in Hfree.
  destruct (Hstore _ _ _ _ _ Hfree Hadd Hfresh) as (Hfound & Hrole' & Hhash').
  unfold student_login, create_access_token, query_email, datetime_utcnow,
    act_bind, act_lift, act_ret.
  rewrite Hsame, <- Hemail, Hfound. simpl.
  unfold normal_role. rewrite Hrole', Hrole. simpl.
  rewrite Hhash', Hhash, Hhasher. simpl.
  now eexists _, _.
Qed.

Lemma find_after_none {B} (test : B -> bool) (rows : list B) (last : B) :
  List.find test rows = None -> test last = true ->
  List.find test (rows ++ [last]) = Some last.
Proof.
  intros Hnone Hlast. induction rows as [|u rows IH]; simpl in *.
  - now rewrite Hlast.
  - destruct (test u); [discriminate|]. now apply IH.
Qed.

Lemma next_id_unused (rows : list User.t) (bound : Z) :
  (fold_right Z.max 0%Z (map User.id rows) <= bound)%Z ->
  List.find (fun u => (User.id u =? 1 + bound)%Z) rows = None.
Proof.
  induction rows as [|u rows IH]; simpl; intros Hmax; [reflexivity|].
  destruct (Z.eqb_spec (User.id u) (1 + bound)) as [Heq|_]; [lia|].
  apply IH. lia.
Qed.

Lemma table_keeps_rows : keeps_rows table_env.
Proof.
  intros rows row rows' stored row'. simpl. intros [= Hnone] [= <- <-].
  rewrite (find_after_none _ rows (with_id row (next_id rows)));
    [|apply next_id_unused; lia|apply Z.eqb_refl].
  intros [= <-]. repeat split. f_equal.
  apply find_after_none; [exact Hnone|]. simpl. apply String.eqb_refl.
Qed.

Lemma string_app_assoc (a b c : string) :
  (a +:+ b) +:+ c = a +:+ (b +:+ c).
Proof.
  induction a as [|x a IH]; [reflexivity|].
  change (String x ((a +:+ b) +:+ c) = String x (a +:+ (b +:+ c))).
  now rewrite IH.
Qed.

Lemma table_hasher_sound : hasher_sound table_env.
Proof.
  intros salt password. simpl. f_equal.
  rewrite <- string_app_assoc. apply prefix_of_app.
Qed.

(** X20 at work: Asha registers on the empty site and logs in. *)
Lemma registered_student_witness :
  fst (student_register table_env " Asha@Example.org " "Dcet@2024" " asha "
         "DCET1" "GPT" None empty_site)
  = Returned
      (PDict [ ("success", PBool true);
               ("message",
                PStr "Registration successful. Verification email sent.");
               ("user",
                PDict [ ("id", PInt 1); ("email", PStr "asha@example.org");
                        ("username", PStr "asha");
                        ("role", PStr "student") ]) ])
  /\ exists token user,
       student_login table_env "ASHA@example.org  " "Dcet@2024" asha_site
       = (Returned (PDict [ ("success", PBool true);
                            ("message", PStr "Login successful");
                            ("token", PStr token);
                            ("user", user) ]), asha_site).
Proof.
  split; [vm_compute; reflexivity|].
  exact (registered_student_can_log_in table_env " Asha@Example.org "
           "ASHA@example.org  " "Dcet@2024" " asha " "DCET1" "GPT" None
           empty_site asha_site _ table_keeps_rows table_hasher_sound
           register_asha eq_refl eq_refl).
Defined.

(** The second way of raising, at work: the connection is lost after the
    commit; the call raises, Asha's row is stored, and a second try is
    refused. *)
Example register_behind_lost_connection :
  student_register stale_env " Asha@Example.org " "Dcet@2024" " asha "
    "DCET1" "GPT" None empty_site
  = (Raised DatabaseError, asha_site)
  /\ fst (student_register stale_env "asha@example.org" "Dcet@2024" "asha"
            "DCET1" "GPT" None asha_site)
     = Returned (PDict [ ("success", PBool false);
                         ("message", PStr "Email already registered") ]).
Proof. split; vm_compute; reflexivity. Qed.

(** ** The hint of previous questions *)





